(** * Movie-Extractor: the advanced media search and its paginated display

    A shallow embedding of [src/MovieExtractor2.py]: the class
    [AdvancedMediaSearch] (genre catalogue, the three fetch paths,
    [advanced_search], [convert_results_to_dataframe]) and the pagination
    loop of [MediaSearchCLI.display_results].

    Conventions of the embedding.
    - Python values that travel through the code (JSON payloads, filter
      values, request parameters) are the inductive [pyval]; a [dict] with
      string keys is a [gmap string pyval].
    - Text is [string], holding the bytes of the UTF-8 encoding of a Python
      [str]: ASCII text character by character, and the order of two texts
      is the order of their characters' codes.  [str.lower] and [int] are
      written out for ASCII text; for text with a character beyond ASCII
      they go by the Unicode tables of the interpreter, which are no part
      of the repository and enter as the parameter [Unicode]: what is
      proved holds for every table.  [str.upper] is only ever compared with
      the letters [N], [P] and [B] and is written out for ASCII letters.
    - An exception is a value of [exn]; a computation that may raise returns
      a [result]; code that prints or calls the network runs in the monad
      [M], whose state records what was printed and which requests were
      sent.  The upstream service is a function [net] from the requests
      sent so far and the current request to the decoded JSON body, or
      [None] when [requests.get] or [response.json()] raises.
    - [pandas.DataFrame(search_data)] is the list of its rows, in the order
      of [search_data].  pandas fits the type of a column to all the values
      of the column, so what a cell holds depends on the other rows too (a
      year next to a missing year is stored as [2021.0], the missing one as
      [NaN]); a row is therefore kept as the dictionary it was made from
      together with the list the frame was made from. *)

From Stdlib Require Import ZArith Ascii Floats.SpecFloat.
From stdpp Require Import gmap strings list fin_maps sorting.

Set Warnings "-register-all".

(** ** Python values *)

Inductive pyval : Type :=
| PNone
| PBool (b : bool)
| PInt (z : Z)
| PFloat (f : spec_float)
| PStr (s : string)
| PList (l : list pyval)
| PDict (d : gmap string pyval).

Inductive exn : Type :=
| AttributeError
| TypeError
| ValueError
| KeyError
| IndexError
| RequestException.

Inductive result (A : Type) : Type :=
| Ok (a : A)
| Raise (e : exn).
Arguments Ok {A} a.
Arguments Raise {A} e.

Definition rbind {A B} (r : result A) (k : A → result B) : result B :=
  match r with
  | Ok a => k a
  | Raise e => Raise e
  end.

#[global] Instance result_bind : MBind result := λ A B k r, rbind r k.

Definition is_ok {A} (r : result A) : bool :=
  match r with Ok _ => true | Raise _ => false end.

(** [bool(v)]: the truth value Python's [if v:] and [v or w] test. *)
Definition truthy (v : pyval) : bool :=
  match v with
  | PNone => false
  | PBool b => b
  | PInt z => negb (z =? 0)%Z
  | PFloat (S754_zero _) => false
  | PFloat _ => true
  | PStr "" => false
  | PStr _ => true
  | PList [] => false
  | PList _ => true
  | PDict d => negb (bool_decide (size d = 0))
  end.

(** [a or b] *)
Definition py_or (a b : pyval) : pyval := if truthy a then a else b.

(** [d.get(key)] and [d.get(key, dflt)] on a dictionary. *)
Definition dict_get (d : gmap string pyval) (key : string) (dflt : pyval) : pyval :=
  default dflt (d !! key).

(** [o.get(key, dflt)] on an arbitrary value: only a dict has [get]. *)
Definition py_get (o : pyval) (key : string) (dflt : pyval) : result pyval :=
  match o with
  | PDict d => Ok (dict_get d key dflt)
  | _ => Raise AttributeError
  end.

(** [o[key]] with a string key. *)
Definition py_getitem (o : pyval) (key : string) : result pyval :=
  match o with
  | PDict d => match d !! key with Some v => Ok v | None => Raise KeyError end
  | _ => Raise TypeError
  end.

(** The items a [for] loop (or a comprehension) draws from [o].  A str
    yields its characters and a dict its keys; below it only matters
    whether there is one and that each is a str, so the text is cut byte by
    byte and the keys come in the order of the map. *)
Fixpoint chars (s : string) : list pyval :=
  match s with
  | EmptyString => []
  | String c s' => PStr (String c EmptyString) :: chars s'
  end.

Definition py_iter (o : pyval) : result (list pyval) :=
  match o with
  | PList l => Ok l
  | PStr s => Ok (chars s)
  | PDict d => Ok (PStr <$> (map_to_list d).*1)
  | _ => Raise TypeError
  end.

(** ** Text *)

Definition ascii_lower (c : ascii) : ascii :=
  let n := nat_of_ascii c in
  if (65 <=? n) && (n <=? 90) then ascii_of_nat (n + 32) else c.

Definition ascii_upper (c : ascii) : ascii :=
  let n := nat_of_ascii c in
  if (97 <=? n) && (n <=? 122) then ascii_of_nat (n - 32) else c.

Fixpoint str_map (f : ascii → ascii) (s : string) : string :=
  match s with
  | EmptyString => EmptyString
  | String c s' => String (f c) (str_map f s')
  end.

(** Every character of [s] satisfies [p]. *)
Fixpoint all_chars (p : ascii → bool) (s : string) : bool :=
  match s with
  | EmptyString => true
  | String c s' => p c && all_chars p s'
  end.

(** [s.isascii()]: no byte of [s] is 128 or more. *)
Definition is_ascii (s : string) : bool :=
  all_chars (λ c, nat_of_ascii c <? 128) s.

(** The Unicode tables of the interpreter, as far as the code consults
    them: what [s.lower()] and [int(s)] return for a text [s] that is not
    ASCII ([None] for [int] stands for [ValueError]). *)
Class Unicode : Type := {
  unicode_lower : string → string;
  unicode_int : string → option Z
}.

(** [s.lower()]: on ASCII text the letters [A] to [Z] are folded. *)
Definition lower `{Unicode} (s : string) : string :=
  if is_ascii s then str_map ascii_lower s else unicode_lower s.

(** [s.upper()], for the comparisons with ["N"], ["P"] and ["B"]. *)
Definition upper (s : string) : string := str_map ascii_upper s.

(** [o.lower()] on an arbitrary value: only a str has [lower]. *)
Definition py_lower `{Unicode} (o : pyval) : result string :=
  match o with
  | PStr s => Ok (lower s)
  | _ => Raise AttributeError
  end.

(** [s.split(sep)] for a one-character separator: never empty. *)
Fixpoint split (sep : ascii) (s : string) : list string :=
  match s with
  | EmptyString => [EmptyString]
  | String c s' =>
      if Ascii.eqb c sep then EmptyString :: split sep s'
      else match split sep s' with
           | w :: ws => String c w :: ws
           | [] => [String c EmptyString]
           end
  end.

(** [o.split('-')] on an arbitrary value: only a str has [split]. *)
Definition py_split (o : pyval) (sep : ascii) : result (list string) :=
  match o with
  | PStr s => Ok (split sep s)
  | _ => Raise AttributeError
  end.

(** [sep.join(l)] *)
Fixpoint join (sep : string) (l : list string) : string :=
  match l with
  | [] => ""
  | [s] => s
  | s :: l' => s +:+ sep +:+ join sep l'
  end.

Definition newline : string := String (ascii_of_nat 10) EmptyString.

(** [sorted(l)] on a list of str: ascending in the order of the characters'
    codes. *)
Definition sorted (l : list string) : list string := merge_sort String.le l.

(** [int(s)] for an ASCII str [s], base 10: surrounding white space is
    dropped, one sign is allowed, then digits, where single underscores may
    separate digits.  More than 4300 digits are refused (the interpreter's
    default limit on str to int conversion).  [None] stands for
    [ValueError]. *)
Fixpoint lstrip (s : string) : string :=
  match s with
  | EmptyString => EmptyString
  | String c s' => if Ascii.is_space c then lstrip s' else s
  end.

Definition strip (s : string) : string :=
  String.rev (lstrip (String.rev (lstrip s))).

Fixpoint int_digits (s : string) (acc : Z) (n : nat) (after_digit : bool)
  : option (Z * nat) :=
  match s with
  | EmptyString => if after_digit then Some (acc, n) else None
  | String c s' =>
      match Ascii.is_nat c with
      | Some d => int_digits s' (10 * acc + Z.of_nat d)%Z (S n) true
      | None =>
          if Ascii.eqb c "_" && after_digit then int_digits s' acc n false
          else None
      end
  end.

Definition max_str_digits : nat := 4300.

Definition int_of_ascii (s : string) : option Z :=
  let t := strip s in
  let '(negative, body) :=
    match t with
    | String "-" b => (true, b)
    | String "+" b => (false, b)
    | _ => (false, t)
    end in
  match int_digits body 0%Z 0 false with
  | Some (v, n) =>
      if n <=? max_str_digits then Some (if negative then (- v)%Z else v)
      else None
  | None => None
  end.

(** [int(s)] for a str [s]. *)
Definition int_of_str `{Unicode} (s : string) : option Z :=
  if is_ascii s then int_of_ascii s else unicode_int s.

Definition py_int `{Unicode} (s : string) : result Z :=
  match int_of_str s with
  | Some z => Ok z
  | None => Raise ValueError
  end.

(** [l[start:stop]] with Python's treatment of negative and out-of-range
    bounds. *)
Definition slice_bound (len i : Z) : Z :=
  if (i <? 0)%Z then Z.max (i + len) 0 else Z.min i len.

Definition py_slice {A} (l : list A) (start stop : Z) : list A :=
  let len := Z.of_nat (length l) in
  let a := slice_bound len start in
  let b := slice_bound len stop in
  take (Z.to_nat (b - a)) (drop (Z.to_nat a) l).

(** ** Rows, requests, output and the effect monad *)

(** The dictionary appended to [search_data] for one item: the values of
    one row of the result table. *)
Record row : Type := {
  title : pyval;
  release_year : option Z;
  overview : pyval;
  popularity : pyval
}.

(** A row of a [DataFrame]: the dictionary [entry] it was made from, and
    the list [search_data] the frame was made from, by which pandas chose
    how the cells of each column are stored.  Slicing a frame keeps its
    rows as they are. *)
Record table_row : Type := {
  entry : row;
  search_data : list row
}.

Definition DataFrame : Type := list table_row.

(** [pd.DataFrame(data)] for a list of dictionaries with the four keys: one
    row per dictionary, in the order of the list. *)
Definition pd_DataFrame (data : list row) : DataFrame :=
  (λ r, {| entry := r; search_data := data |}) <$> data.

(** The arguments of one [requests.get(url, params=params)]. *)
Record request : Type := {
  url : string;
  params : gmap string pyval
}.

(** What the program writes to standard output, call by call:
    [Line t] is [print(t)]; [Inline t e] is [print(t, end=e)];
    [ErrorLine c e] is [print(f"{c}: {e}")] for a caught exception [e];
    [PageHeader c t] is the line ["--- Results Page c/t ---"];
    [RowLines r] is the block of lines printed for the row [r] of a frame;
    [Prompt t] is the prompt of [input(t)]. *)
Inductive event : Type :=
| Line (text : string)
| Inline (text ending : string)
| ErrorLine (context : string) (e : exn)
| PageHeader (current_page total_pages : Z)
| RowLines (r : table_row)
| Prompt (text : string).

Record world : Type := {
  out : list event;
  sent : list request
}.

Definition M (A : Type) : Type := world → result A * world.

Definition ret {A} (a : A) : M A := λ w, (Ok a, w).

Definition raise {A} (e : exn) : M A := λ w, (Raise e, w).

Definition bind {A B} (m : M A) (k : A → M B) : M B := λ w,
  match m w with
  | (Ok a, w') => k a w'
  | (Raise e, w') => (Raise e, w')
  end.

#[global] Instance M_bind : MBind M := λ A B k m, bind m k.

Definition lift {A} (r : result A) : M A := λ w, (r, w).

(** [try: body except Exception as e: handler(e)] *)
Definition try_except {A} (body : M A) (handler : exn → M A) : M A := λ w,
  match body w with
  | (Ok a, w') => (Ok a, w')
  | (Raise e, w') => handler e w'
  end.

Definition emit (ev : event) : M unit := λ w,
  (Ok tt, {| out := out w ++ [ev]; sent := sent w |}).

Definition print (line : string) : M unit := emit (Line line).

(** ** convert_results_to_dataframe *)

(** The body of the loop: the dictionary appended for one item. *)
Definition convert_item `{Unicode} (item : pyval) : result row :=
  name ← py_get item "name" (PStr "N/A");
  t ← py_get item "title" name;
  rd ← py_get item "release_date" PNone;
  release_date ← (if truthy rd then Ok rd
                  else py_get item "first_air_date" PNone);
  y ← (if truthy release_date then
         parts ← py_split release_date "-";
         match parts !! 0 with
         | Some p => n ← py_int p; Ok (Some n)
         | None => Raise IndexError
         end
       else Ok None);
  o ← py_get item "overview" (PStr "No overview");
  p ← py_get item "popularity" (PInt 0);
  Ok {| title := t; release_year := y; overview := o; popularity := p |}.

(** The loop over the items: [search_data] at its end. *)
Fixpoint convert_items `{Unicode} (items : list pyval) : result (list row) :=
  match items with
  | [] => Ok []
  | item :: rest =>
      r ← convert_item item;
      rs ← convert_items rest;
      Ok (r :: rs)
  end.

Definition convert_results_to_dataframe `{Unicode} (results : pyval)
  : result DataFrame :=
  items ← py_iter results;
  search_data ← convert_items items;
  Ok (pd_DataFrame search_data).

(** ** class AdvancedMediaSearch *)

Record AdvancedMediaSearch : Type := {
  tmdb_api_key : pyval;
  watchmode_api_key : pyval;
  tmdb_base_url : string;
  movie_genres : gmap string pyval;
  tv_genres : gmap string pyval;
  platform_mapping : gmap Z string
}.

(** [os.getenv(name)] *)
Definition getenv (env : gmap string string) (name : string) : pyval :=
  match env !! name with
  | Some v => PStr v
  | None => PNone
  end.

Definition _load_platform_mapping : gmap Z string :=
  <[203%Z := "Netflix"]> (<[119%Z := "Hulu"]> (<[9%Z := "Amazon Prime Video"]>
  (<[372%Z := "Disney+"]> (<[387%Z := "HBO Max"]> (<[531%Z := "Apple TV+"]>
  (<[254%Z := "Peacock"]> ∅)))))).

(** The key and the value one genre record [g] contributes to the
    comprehension [{g["name"].lower(): g["id"] for g in ...}]. *)
Definition genre_entry `{Unicode} (g : pyval) : result (string * pyval) :=
  name ← py_getitem g "name";
  key ← py_lower name;
  id ← py_getitem g "id";
  Ok (key, id).

Fixpoint genre_dict `{Unicode} (acc : gmap string pyval) (gs : list pyval)
  : result (gmap string pyval) :=
  match gs with
  | [] => Ok acc
  | g :: gs' =>
      kv ← genre_entry g;
      genre_dict (<[kv.1 := kv.2]> acc) gs'
  end.

(** The comprehension over [genre_data.get("genres", [])]. *)
Definition parse_genres `{Unicode} (genre_data : pyval)
  : result (gmap string pyval) :=
  genres ← py_get genre_data "genres" (PList []);
  gs ← py_iter genres;
  genre_dict ∅ gs.

(** [genre_url] and [params] of [_get_genre_mappings]. *)
Definition genre_list_request (base_url : string) (api_key : pyval)
    (media_type : string) : request :=
  {| url := base_url +:+ "/genre/" +:+ media_type +:+ "/list";
     params := <["api_key" := api_key]> ∅ |}.

(** [search_url] and [params] of [_basic_search]. *)
Definition search_request (self : AdvancedMediaSearch)
    (query media_type : string) : request :=
  {| url := tmdb_base_url self +:+ "/search/" +:+ media_type;
     params :=
       <["api_key" := tmdb_api_key self]> (<["query" := PStr query]>
       (<["language" := PStr "en-US"]> (<["page" := PInt 1]> ∅))) |}.

(** [genre_map] of [fetch_by_genre]. *)
Definition genre_map_for (self : AdvancedMediaSearch) (media_type : string)
  : gmap string pyval :=
  if String.eqb media_type "movie" then movie_genres self else tv_genres self.

(** [key] of [fetch_by_genre] and of [fetch_by_year]. *)
Definition year_key (media_type : string) : string :=
  if String.eqb media_type "movie" then "primary_release_year"
  else "first_air_date_year".

(** [discover_url] and [params] of [fetch_by_genre], once the genre has
    been found. *)
Definition genre_request (self : AdvancedMediaSearch) (genre_id : pyval)
    (media_type : string) (release_year : pyval) : request :=
  let ps : gmap string pyval :=
    <["api_key" := tmdb_api_key self]> (<["with_genres" := genre_id]>
    (<["language" := PStr "en-US"]> (<["page" := PInt 1]> ∅))) in
  {| url := tmdb_base_url self +:+ "/discover/" +:+ media_type;
     params :=
       if truthy release_year
       then <[year_key media_type := release_year]> ps
       else ps |}.

(** [discover_url] and [params] of [fetch_by_year]. *)
Definition year_request (self : AdvancedMediaSearch) (year : pyval)
    (media_type : string) : request :=
  let ps : gmap string pyval :=
    <["api_key" := tmdb_api_key self]>
    (<["language" := PStr "en-US"]> (<["page" := PInt 1]> ∅)) in
  {| url := tmdb_base_url self +:+ "/discover/" +:+ media_type;
     params := <[year_key media_type := year]> ps |}.

(** The expression [response.json().get("results", [])], applied to the
    decoded body. *)
Definition body_get (body : pyval) (key : string) : result pyval :=
  py_get body key (PList []).

Section Upstream.

Context `{Unicode}.

(** The upstream services: the answer to a request, given the requests sent
    before it; [None] when the call or the decoding raises. *)
Variable net : list request → request → option pyval.

(** [requests.get(url, params=params)] followed by [response.json()]. *)
Definition get_json (r : request) : M pyval := λ w,
  (match net (sent w) r with
   | Some body => Ok body
   | None => Raise RequestException
   end,
   {| out := out w; sent := sent w ++ [r] |}).

Definition _get_genre_mappings (base_url : string) (api_key : pyval)
    (media_type : string) : M (gmap string pyval) :=
  try_except
    (genre_data ← get_json (genre_list_request base_url api_key media_type);
     lift (parse_genres genre_data))
    (λ e, _ ← emit (ErrorLine ("Error fetching " +:+ media_type +:+ " genres") e);
          ret ∅).

(** [AdvancedMediaSearch()] in the environment [env]. *)
Definition init (env : gmap string string) : M AdvancedMediaSearch :=
  let api_key := getenv env "TMDB_API_KEY" in
  let wm_key := getenv env "WATCHMODE_API_KEY" in
  let base := "https://api.themoviedb.org/3" in
  mg ← _get_genre_mappings base api_key "movie";
  tg ← _get_genre_mappings base api_key "tv";
  ret {| tmdb_api_key := api_key;
         watchmode_api_key := wm_key;
         tmdb_base_url := base;
         movie_genres := mg;
         tv_genres := tg;
         platform_mapping := _load_platform_mapping |}.

Variable self : AdvancedMediaSearch.

Definition _basic_search (query : string) (media_type : string) : M pyval :=
  try_except
    (response ← get_json (search_request self query media_type);
     lift (body_get response "results"))
    (λ e, _ ← emit (ErrorLine "Error in basic search" e); ret (PList [])).

Definition fetch_by_genre (genre : pyval) (media_type : string)
    (release_year : pyval) : M pyval :=
  let genre_map := genre_map_for self media_type in
  match genre with
  | PStr g =>
      match genre_map !! lower g with
      | None =>
          _ ← print ("Genre '" +:+ g +:+ "' not found. Available genres:");
          _ ← print (join newline (sorted (map_to_list genre_map).*1));
          ret (PList [])
      | Some genre_id =>
          try_except
            (response ← get_json (genre_request self genre_id media_type release_year);
             lift (body_get response "results"))
            (λ e, _ ← emit (ErrorLine "Error fetching by genre" e);
                  ret (PList []))
      end
  | _ => raise AttributeError  (* [genre.lower()] on a value that is no str *)
  end.

Definition fetch_by_year (year : pyval) (media_type : string) : M pyval :=
  try_except
    (response ← get_json (year_request self year media_type);
     lift (body_get response "results"))
    (λ e, _ ← emit (ErrorLine "Error fetching by year" e); ret (PList [])).

Definition advanced_search (query media_type : string)
    (filters : option (gmap string pyval)) : M DataFrame :=
  let filters := default ∅ filters in
  let genre := dict_get filters "genre" PNone in
  let release_year := dict_get filters "release_year" PNone in
  results ← (if truthy genre then
               fetch_by_genre genre media_type release_year
             else if truthy release_year then
               fetch_by_year release_year media_type
             else
               _basic_search query media_type);
  lift (convert_results_to_dataframe results).

End Upstream.

(** ** MediaSearchCLI.display_results *)

Definition page_size : Z := 5.

Definition total_pages (results : DataFrame) : Z :=
  ((Z.of_nat (length results) + page_size - 1) / page_size)%Z.

(** [results.iloc[start_idx:end_idx]] for the page [current_page]. *)
Definition page_results (results : DataFrame) (current_page : Z) : DataFrame :=
  let start_idx := ((current_page - 1) * page_size)%Z in
  let end_idx := (start_idx + page_size)%Z in
  py_slice results start_idx end_idx.

(** What one turn of the loop prints before it reads the action. *)
Definition show_page (results : DataFrame) (total current_page : Z) : list event :=
  [PageHeader current_page total]
  ++ (RowLines <$> page_results results current_page)
  ++ [Line (newline +:+ "Navigation:")]
  ++ (if (1 <? current_page)%Z then [Inline "P - Previous Page" " | "] else [])
  ++ (if (current_page <? total)%Z then [Inline "N - Next Page" " | "] else [])
  ++ [Line "B - Back to Main Menu"; Prompt (newline +:+ "Choose an action: ")].

Inductive nav_outcome : Type :=
| Goto (page : Z)
| Leave.

(** The [if]/[elif] chain on the action [nav], already in upper case. *)
Definition navigate (total current_page : Z) (nav : string)
  : nav_outcome * list event :=
  if String.eqb nav "N" && (current_page <? total)%Z then
    (Goto (current_page + 1)%Z, [])
  else if String.eqb nav "P" && (1 <? current_page)%Z then
    (Goto (current_page - 1)%Z, [])
  else if String.eqb nav "B" then
    (Leave, [])
  else
    (Goto current_page, [Line "Invalid navigation choice."]).

(** The [while True] loop, run on the lines the user types.  The second
    component is the page on which the loop waits for more input, or [None]
    once the user has left with [B]. *)
Fixpoint display_loop (results : DataFrame) (total current_page : Z)
    (inputs : list string) : list event * option Z :=
  let shown := show_page results total current_page in
  match inputs with
  | [] => (shown, Some current_page)
  | line :: rest =>
      match navigate total current_page (upper line) with
      | (Leave, evs) => (shown ++ evs, None)
      | (Goto page, evs) =>
          let '(later, final) := display_loop results total page rest in
          (shown ++ evs ++ later, final)
      end
  end.

Definition display_results (results : DataFrame) (inputs : list string)
  : list event * option Z :=
  match results with
  | [] => ([Line (newline +:+ "🚫 No results found.")], None)
  | _ => display_loop results (total_pages results) 1%Z inputs
  end.

(** ** class MediaSearchCLI: the session at the terminal

    The lines the user types are a list; [input] takes the next one, and
    when none is left the program waits ([Waiting]).  [sys.exit(code)] ends
    the session with [Exited code]; it is not an [Exception], so no
    [except Exception] catches it. *)

Inductive outcome (A : Type) : Type :=
| Returned (a : A)
| Raised (e : exn)
| Exited (code : Z)
| Waiting.
Arguments Returned {A} a.
Arguments Raised {A} e.
Arguments Exited {A} code.
Arguments Waiting {A}.

Definition C (A : Type) : Type :=
  list string → world → outcome A * list string * world.

Definition cbind {A B} (m : C A) (k : A → C B) : C B := λ keys w,
  match m keys w with
  | (Returned a, keys', w') => k a keys' w'
  | (Raised e, keys', w') => (Raised e, keys', w')
  | (Exited code, keys', w') => (Exited code, keys', w')
  | (Waiting, keys', w') => (Waiting, keys', w')
  end.

#[global] Instance C_bind : MBind C := λ A B k m, cbind m k.

Definition cret {A} (a : A) : C A := λ keys w, (Returned a, keys, w).

(** The world after [evs] have been printed. *)
Definition printing (evs : list event) (w : world) : world :=
  {| out := out w ++ evs; sent := sent w |}.

Definition say (evs : list event) : C unit := λ keys w,
  (Returned tt, keys, printing evs w).

(** [input(prompt)] *)
Definition input (prompt : string) : C string := λ keys w,
  match keys with
  | [] => (Waiting, [], printing [Prompt prompt] w)
  | line :: rest => (Returned line, rest, printing [Prompt prompt] w)
  end.

(** A call of a method of the searcher. *)
Definition call {A} (m : M A) : C A := λ keys w,
  match m w with
  | (Ok a, w') => (Returned a, keys, w')
  | (Raise e, w') => (Raised e, keys, w')
  end.

(** [try: body except Exception as e: handler(e)] *)
Definition except_Exception {A} (body : C A) (handler : exn → C A) : C A :=
  λ keys w,
  match body keys w with
  | (Raised e, keys', w') => handler e keys' w'
  | other => other
  end.

(** [sys.exit(code)] *)
Definition sys_exit {A} (code : Z) : C A := λ keys w, (Exited code, keys, w).

(** [s * n] *)
Fixpoint str_repeat (s : string) (n : nat) : string :=
  match n with
  | 0 => ""
  | S n' => s +:+ str_repeat s n'
  end.

(** [input(...) or "movie"] *)
Definition or_movie (line : string) : string :=
  match line with
  | "" => "movie"
  | _ => line
  end.

(** [self.searcher.advanced_search], under a name the method of the same
    name of the interface does not hide. *)
Definition searcher_advanced_search `{Unicode} := advanced_search.

Module MediaSearchCLI.

(** The title is 30 characters long, so [center(50)] puts ten spaces on
    either side. *)
Definition print_header : C unit :=
  say [Line (newline +:+ str_repeat "=" 50);
       Line (str_repeat " " 10 +:+ "🎬 Advanced Media Search Tool 🍿"
             +:+ str_repeat " " 10);
       Line (str_repeat "=" 50)].

Definition menu : list event :=
  [Line (newline +:+ "Choose Search Method:");
   Line "1. Search by Title";
   Line "2. Search by Genre";
   Line "3. Search by Year";
   Line "4. Advanced Search (Multiple Filters)";
   Line "5. Exit"].

(** The [while True] loop of [get_user_choice]. *)
Fixpoint choice_loop `{Unicode} (keys : list string) (w : world)
  : outcome Z * list string * world :=
  let w1 := printing [Prompt (newline +:+ "Enter your choice (1-5): ")] w in
  match keys with
  | [] => (Waiting, [], w1)
  | line :: rest =>
      match int_of_str line with
      | Some choice =>
          if (1 <=? choice)%Z && (choice <=? 5)%Z then (Returned choice, rest, w1)
          else choice_loop rest
                 (printing
                    [Line "Invalid choice. Please enter a number between 1 and 5."]
                    w1)
      | None =>
          choice_loop rest (printing [Line "Please enter a valid number."] w1)
      end
  end.

Definition get_user_choice `{Unicode} : C Z := λ keys w,
  choice_loop keys (printing menu w).

(** The [while True] loop of [display_results], on the session's lines. *)
Fixpoint display_pages (results : DataFrame) (total current_page : Z)
    (keys : list string) (w : world) : outcome unit * list string * world :=
  let w1 := printing (show_page results total current_page) w in
  match keys with
  | [] => (Waiting, [], w1)
  | line :: rest =>
      match navigate total current_page (upper line) with
      | (Leave, evs) => (Returned tt, rest, printing evs w1)
      | (Goto page, evs) =>
          display_pages results total page rest (printing evs w1)
      end
  end.

Definition display_results (results : DataFrame) : C unit :=
  match results with
  | [] => say [Line (newline +:+ "🚫 No results found.")]
  | _ => display_pages results (total_pages results) 1%Z
  end.

Section Session.

Context `{Unicode}.

Variable net : list request → request → option pyval.

(** [self.searcher] *)
Variable searcher : AdvancedMediaSearch.

Definition search_by_title : C unit :=
  query ← input "Enter title to search: ";
  media_type ← input "Enter media type (movie/tv, default=movie): ";
  let media_type := or_movie media_type in
  except_Exception
    (results ← call (searcher_advanced_search net searcher query media_type None);
     display_results results)
    (λ e, say [ErrorLine "Error in search" e]).

Definition search_by_genre : C unit :=
  genre ← input "Enter genre (e.g., Science Fiction): ";
  media_type ← input "Enter media type (movie/tv, default=movie): ";
  let media_type := or_movie media_type in
  year ← input "Enter release year (optional, press enter to skip): ";
  except_Exception
    (year ← call (lift (match year with
                        | "" => Ok PNone
                        | _ => n ← py_int year; Ok (PInt n)
                        end));
     results ← call (searcher_advanced_search net searcher "" media_type
                       (Some (<["release_year" := year]>
                               (<["genre" := PStr genre]> ∅))));
     display_results results)
    (λ e, say [ErrorLine "Error in search" e]).

Definition advanced_search : C unit :=
  let filters : gmap string pyval := ∅ in
  query ← input "Enter search query (optional): ";
  media_type ← input "Enter media type (movie/tv, default=movie): ";
  let media_type := or_movie media_type in
  genre_filter ← input "Enter genre filter (optional): ";
  let filters :=
    match genre_filter with
    | "" => filters
    | _ => <["genre" := PStr genre_filter]> filters
    end in
  year_filter ← input "Enter release year filter (optional): ";
  filters ← match year_filter with
            | "" => cret filters
            | _ =>
                match int_of_str year_filter with
                | Some n => cret (<["release_year" := PInt n]> filters)
                | None =>
                    _ ← say [Line "Invalid year. Skipping year filter."];
                    cret filters
                end
            end;
  except_Exception
    (results ← call (searcher_advanced_search net searcher query media_type
                       (Some filters));
     display_results results)
    (λ e, say [ErrorLine "Error in advanced search" e]).

(** The branch of [run] for the choice 3. *)
Definition search_by_year : C unit :=
  year ← input "Enter release year: ";
  except_Exception
    (n ← call (lift (py_int year));
     results ← call (searcher_advanced_search net searcher "" "movie"
                       (Some (<["release_year" := PInt n]> ∅)));
     display_results results)
    (λ e, say [ErrorLine "Error in search" e]).

(** One turn of the [while True] loop of [run]. *)
Definition turn : C unit :=
  _ ← print_header;
  choice ← get_user_choice;
  _ ← (if (choice =? 1)%Z then search_by_title
       else if (choice =? 2)%Z then search_by_genre
       else if (choice =? 3)%Z then search_by_year
       else if (choice =? 4)%Z then advanced_search
       else if (choice =? 5)%Z then
         _ ← say [Line (newline +:+
                    "Thank you for using Media Search Tool. Goodbye! 👋")];
         sys_exit 0
       else cret tt);
  _ ← input (newline +:+ "Press Enter to continue...");
  cret tt.

(** [run], unrolled at most [fuel] turns; [None] when the turns are used
    up. *)
Fixpoint run (fuel : nat) (keys : list string) (w : world)
  : option (outcome unit * list string * world) :=
  match fuel with
  | 0 => None
  | S fuel' =>
      match turn keys w with
      | (Returned _, keys', w') => run fuel' keys' w'
      | stopped => Some stopped
      end
  end.

End Session.

(** [main()]: the searcher is built, and the constructor of the interface
    runs the loop. *)
Definition main `{Unicode} (net : list request → request → option pyval)
    (env : gmap string string) (fuel : nat) (keys : list string) (w : world)
  : option (outcome unit * list string * world) :=
  match init net env w with
  | (Ok media_searcher, w') => run net media_searcher fuel keys w'
  | (Raise e, w') => Some (Raised e, keys, w')
  end.

End MediaSearchCLI.

(** ** class MediaInfoSystem ([src/MovieExtractor.py]): filter_by_genre *)

Module MediaInfoSystem.

(** The object: the three keys [os.getenv] has read, each a text or
    [None]. *)
Record object : Type := {
  tmdb_api_key : option string;
  openai_api_key : option string;
  watchmode_api_key : option string
}.

(** [f"{key}"] for a key. *)
Definition format_key (key : option string) : string :=
  match key with
  | Some text => text
  | None => "None"
  end.

(** [genres_url] of [filter_by_genre]; the call passes no [params]. *)
Definition genres_request (self : object) : request :=
  {| url := "https://api.themoviedb.org/3/genre/movie/list?api_key="
            +:+ format_key (tmdb_api_key self);
     params := (∅ : gmap string pyval) |}.

Section Filter.

Context `{Unicode}.

Variable net : list request → request → option pyval.

(** Python's membership test [x in c] on decoded JSON values: a truth value
    or an exception. *)
Variable contains : pyval → pyval → result bool.

(** [any(genre_id in media.get('genre_ids', []) for genre_id in genre_ids)] *)
Fixpoint any_genre (media : pyval) (genre_ids : list pyval) : result bool :=
  match genre_ids with
  | [] => Ok false
  | genre_id :: ids =>
      container ← py_get media "genre_ids" (PList []);
      found ← contains genre_id container;
      if (found : bool) then Ok true else any_genre media ids
  end.

(** The comprehension [[media for media in media_list if any(...)]]. *)
Fixpoint select_media (genre_ids : list pyval) (media_list : list pyval)
  : result (list pyval) :=
  match media_list with
  | [] => Ok []
  | media :: rest =>
      keep ← any_genre media genre_ids;
      kept ← select_media genre_ids rest;
      Ok (if (keep : bool) then media :: kept else kept)
  end.

(** [[genre_map[g.lower()] for g in genre_names if g.lower() in genre_map]] *)
Definition resolve_names (genre_map : gmap string pyval)
    (genre_names : list string) : list pyval :=
  omap (λ g, genre_map !! lower g) genre_names.

Definition filter_by_genre (self : object) (media_list : list pyval)
    (genre_names : list string) : M (list pyval) :=
  genre_response ← get_json net (genres_request self);
  lift (genres ← py_getitem genre_response "genres";
        gs ← py_iter genres;
        genre_map ← genre_dict ∅ gs;
        let genre_ids := resolve_names genre_map genre_names in
        select_media genre_ids media_list).

End Filter.

End MediaInfoSystem.

(** * Vocabulary of the statements *)

(** The date [convert_item] reads from a dictionary: [release_date] when it
    is truthy, else [first_air_date]. *)
Definition date_field (d : gmap string pyval) : pyval :=
  py_or (dict_get d "release_date" PNone) (dict_get d "first_air_date" PNone).

(** The text before the first ['-'] of a date. *)
Definition leading_segment (s : string) : string :=
  default "" (head (split "-" s)).

(** A date the conversion accepts: a falsy value (no year), or text whose
    leading segment [int] can read. *)
Definition date_parses `{Unicode} (v : pyval) : bool :=
  match v with
  | PStr s => negb (truthy v) || bool_decide (is_Some (int_of_str (leading_segment s)))
  | _ => negb (truthy v)
  end.

(** An item the conversion accepts: a dictionary with such a date. *)
Definition well_formed_item `{Unicode} (item : pyval) : bool :=
  match item with
  | PDict d => date_parses (date_field d)
  | _ => false
  end.

(** The title, the overview and the popularity of the dictionary appended
    for [d], and that dictionary, given its year. *)
Definition title_of (d : gmap string pyval) : pyval :=
  match d !! "title" with
  | Some v => v
  | None => match d !! "name" with Some v => v | None => PStr "N/A" end
  end.

Definition overview_of (d : gmap string pyval) : pyval :=
  match d !! "overview" with Some v => v | None => PStr "No overview" end.

Definition popularity_of (d : gmap string pyval) : pyval :=
  match d !! "popularity" with Some v => v | None => PInt 0 end.

Definition row_of (d : gmap string pyval) (year : option Z) : row :=
  {| title := title_of d; release_year := year;
     overview := overview_of d; popularity := popularity_of d |}.

(** The filters [advanced_search] reads. *)
Definition genre_filter (filters : option (gmap string pyval)) : pyval :=
  dict_get (default ∅ filters) "genre" PNone.

Definition year_filter (filters : option (gmap string pyval)) : pyval :=
  dict_get (default ∅ filters) "release_year" PNone.

(** What a fetch hands back for the upstream's answer, and the exception it
    has caught on the way, if any. *)
Definition results_of (answer : option pyval) : pyval :=
  match answer with
  | Some (PDict d) => dict_get d "results" (PList [])
  | _ => PList []
  end.

Definition caught (answer : option pyval) : option exn :=
  match answer with
  | None => Some RequestException
  | Some (PDict _) => None
  | Some _ => Some AttributeError
  end.

(** The world after one fetch of [r] that reports its failures under
    [context]. *)
Definition after_fetch (context : string) (r : request)
    (answer : option pyval) (w : world) : world :=
  {| out := out w ++ match caught answer with
                     | Some e => [ErrorLine context e]
                     | None => []
                     end;
     sent := sent w ++ [r] |}.

(** A search served by the single request [r]: the table converted from the
    answer, in the world after the fetch. *)
Definition served `{Unicode} (net : list request → request → option pyval)
    (context : string) (r : request) (w : world) : result DataFrame * world :=
  (convert_results_to_dataframe (results_of (net (sent w) r)),
   after_fetch context r (net (sent w) r) w).

(** The world after [fetch_by_genre] has reported that [g] is unknown. *)
Definition genre_not_found (self : AdvancedMediaSearch) (g media_type : string)
    (w : world) : world :=
  {| out := out w ++
       [Line ("Genre '" +:+ g +:+ "' not found. Available genres:");
        Line (join newline (sorted (map_to_list (genre_map_for self media_type)).*1))];
     sent := sent w |}.

Definition movie_year (r : request) : option pyval :=
  params r !! "primary_release_year".

Definition tv_year (r : request) : option pyval :=
  params r !! "first_air_date_year".

(** The catalogue [_get_genre_mappings] builds from the upstream's answer. *)
Definition catalogue_of `{Unicode} (answer : option pyval) : gmap string pyval :=
  match answer with
  | Some body => match parse_genres body with Ok m => m | Raise _ => ∅ end
  | None => ∅
  end.

(** The fetch of the genre list fails: the call or the decoding raises, or
    the comprehension over the decoded body does. *)
Definition fetch_failed `{Unicode} (answer : option pyval) : Prop :=
  match answer with
  | Some body => is_ok (parse_genres body) = false
  | None => True
  end.

Definition catalogue_error `{Unicode} (answer : option pyval) : option exn :=
  match answer with
  | Some body => match parse_genres body with Ok _ => None | Raise e => Some e end
  | None => Some RequestException
  end.

(** ** Sample data *)

(** Tables for the samples.  Beyond ASCII, [latin1_lower] folds the capital
    letters of Latin-1 (the two bytes of U+00C0 to U+00DE, the
    multiplication sign apart) as it folds [A] to [Z], and [int] reads the
    full-width digits U+FF10 to U+FF19 as the digits [0] to [9]. *)
Fixpoint latin1_lower (s : string) : string :=
  match s with
  | EmptyString => EmptyString
  | String "195" (String c s') =>
      let n := nat_of_ascii c in
      let folded :=
        if (128 <=? n) && (n <=? 158) && negb (n =? 151)
        then ascii_of_nat (n + 32) else c in
      String "195" (String folded (latin1_lower s'))
  | String c s' => String (ascii_lower c) (latin1_lower s')
  end.

Fixpoint narrow_digits (s : string) : string :=
  match s with
  | EmptyString => EmptyString
  | String "239" (String "188" (String c s')) =>
      let n := nat_of_ascii c in
      if (144 <=? n) && (n <=? 153)
      then String (ascii_of_nat (n - 96)) (narrow_digits s')
      else String "239" (String "188" (String c (narrow_digits s')))
  | String c s' => String c (narrow_digits s')
  end.

Definition sample_tables : Unicode :=
  {| unicode_lower := latin1_lower;
     unicode_int := λ s, int_of_ascii (narrow_digits s) |}.

(** A sample of the upstream's records. *)
Definition movie_item : pyval :=
  PDict (<["title" := PStr "Dune"]> (<["release_date" := PStr "2021-09-15"]>
        (<["overview" := PStr "Paul Atreides"]> (<["popularity" := PInt 93]> ∅)))).

Definition tv_item : gmap string pyval :=
  <["name" := PStr "Stranger Things"]> (<["first_air_date" := PStr "2016-07-15"]> ∅).

(** A film dated in full-width digits. *)
Definition wide_dated_item : gmap string pyval :=
  <["title" := PStr "Dune"]> (<["release_date" := PStr "２０２０-01-01"]> ∅).

Definition undated_item : gmap string pyval :=
  <["title" := PStr "Dune"]> (<["release_date" := PStr "TBA"]> ∅).

Definition unaired_item : pyval :=
  PDict (<["name" := PStr "Pilot"]> (<["first_air_date" := PStr "soon"]> ∅)).

Definition sample_body : pyval := PDict (<["results" := PList [movie_item]]> ∅).

Definition sample_net : list request → request → option pyval :=
  λ _ _, Some sample_body.

Definition sample_self : AdvancedMediaSearch :=
  {| tmdb_api_key := PStr "key";
     watchmode_api_key := PNone;
     tmdb_base_url := "https://api.themoviedb.org/3";
     movie_genres := <["comedy" := PInt 35]> (<["sci-fi" := PInt 878]> ∅);
     tv_genres := <["drama" := PInt 18]> (<["comedy" := PInt 10035]> ∅);
     platform_mapping := _load_platform_mapping |}.


Definition quiet : world := {| out := []; sent := [] |}.

Definition dune_row : row :=
  {| title := PStr "Dune"; release_year := Some 2021%Z;
     overview := PStr "Paul Atreides"; popularity := PInt 93 |}.

(** A table of twelve rows. *)
Definition twelve_rows : DataFrame := pd_DataFrame (replicate 12 dune_row).

Definition zero_year_filters : gmap string pyval := <["release_year" := PInt 0]> ∅.

Definition year_filters : gmap string pyval := <["release_year" := PInt 1999]> ∅.

Definition comedy_filters : gmap string pyval :=
  <["genre" := PStr "Comedy"]> (<["release_year" := PInt 2020]> ∅).

Definition offline_net : list request → request → option pyval := λ _ _, None.

Definition bare_self : AdvancedMediaSearch :=
  {| tmdb_api_key := PNone;
     watchmode_api_key := PNone;
     tmdb_base_url := "https://api.themoviedb.org/3";
     movie_genres := ∅;
     tv_genres := ∅;
     platform_mapping := _load_platform_mapping |}.

Definition untitled_item : gmap string pyval := <["overview" := PStr "A pilot"]> ∅.

(** ** Further vocabulary and samples *)

(** A value a [for] loop cannot draw items from. *)
Definition not_iterable (v : pyval) : Prop :=
  match v with
  | PNone | PBool _ | PInt _ | PFloat _ => True
  | _ => False
  end.

Definition numeric_genre_filters : gmap string pyval := <["genre" := PInt 7]> ∅.

Definition null_results_net : list request → request → option pyval :=
  λ _ _, Some (PDict (<["results" := PNone]> ∅)).

Definition garbage_net : list request → request → option pyval :=
  λ _ _, Some (PList [PInt 1]).

(** A record of the upstream's genre list: a dictionary with the text
    [name] and the identifier [id], and whatever else. *)
Definition is_genre_record (g : pyval) (r : string * pyval) : Prop :=
  ∃ d, g = PDict d ∧ d !! "name" = Some (PStr r.1) ∧ d !! "id" = Some r.2.

(** The catalogue of a list of (name, identifier): keyed by the lower-case
    names, a later record replacing an earlier one of the same key. *)
Definition catalogue_from `{Unicode} (recs : list (string * pyval))
  : gmap string pyval :=
  foldl (λ m r, <[lower r.1 := r.2]> m) ∅ recs.

Definition genre_record (name : string) (id : pyval) : pyval :=
  PDict (<["id" := id]> (<["name" := PStr name]> ∅)).

Definition sample_genres : list pyval :=
  [genre_record "Action" (PInt 28); genre_record "Science Fiction" (PInt 878)].

Definition sample_genre_names : list (string * pyval) :=
  [("Action", PInt 28); ("Science Fiction", PInt 878)].

Definition french_genres : list pyval :=
  [genre_record "Comédie" (PInt 35); genre_record "ÉMISSIONS" (PInt 10764)].

Definition french_genre_names : list (string * pyval) :=
  [("Comédie", PInt 35); ("ÉMISSIONS", PInt 10764)].

Definition nameless_genres : list pyval :=
  [genre_record "Action" (PInt 28); PDict (<["id" := PInt 12]> ∅)].

Definition genre_body (gs : list pyval) : gmap string pyval :=
  <["genres" := PList gs]> ∅.

Definition genres_net (gs : list pyval) : list request → request → option pyval :=
  λ _ _, Some (PDict (genre_body gs)).

(** The character of a decimal digit, the text of a list of digits and the
    number it denotes. *)
Definition digit_char (n : nat) : ascii := ascii_of_nat (48 + n).

Fixpoint digits_text (ds : list nat) : string :=
  match ds with
  | [] => EmptyString
  | n :: ds' => String (digit_char n) (digits_text ds')
  end.

Definition decimal_from (acc : Z) (ds : list nat) : Z :=
  foldl (λ a n, (10 * a + Z.of_nat n)%Z) acc ds.

Definition decimal (ds : list nat) : Z := decimal_from 0 ds.

Definition not_space (c : ascii) : bool := negb (Ascii.is_space c).

Definition dated_2021 : gmap string pyval :=
  <["title" := PStr "Dune"]> (<["release_date" := PStr "2021-09-15"]> ∅).

(** A computation of the session that has come to rest without an
    exception: it has returned, having read some of the lines, or it waits
    for a line, all lines read. *)
Definition settles {A} (keys : list string)
    (r : outcome A * list string * world) : Prop :=
  match r.1.1 with
  | Returned _ => length r.1.2 ≤ length keys
  | Waiting => r.1.2 = []
  | Raised _ | Exited _ => False
  end.

(** The same, an exception allowed. *)
Definition tame {A} (keys : list string)
    (r : outcome A * list string * world) : Prop :=
  match r.1.1 with
  | Returned _ | Raised _ => length r.1.2 ≤ length keys
  | Waiting => r.1.2 = []
  | Exited _ => False
  end.

(** A line [get_user_choice] accepts, and what it prints for one it does
    not. *)
Definition valid_choice `{Unicode} (line : string) : bool :=
  match int_of_str line with
  | Some choice => (1 <=? choice)%Z && (choice <=? 5)%Z
  | None => false
  end.

Definition choice_prompt : event :=
  Prompt (newline +:+ "Enter your choice (1-5): ").

Definition choice_notice `{Unicode} (line : string) : event :=
  match int_of_str line with
  | Some _ => Line "Invalid choice. Please enter a number between 1 and 5."
  | None => Line "Please enter a valid number."
  end.

Definition unreadable_net : list request → request → option pyval :=
  λ _ _, Some (PDict (<["results" := PList [unaired_item]]> ∅)).

(** A membership test for the samples: [x in c] for an integer [x] and a
    list [c] of integers. *)
Definition int_in_list (x c : pyval) : result bool :=
  match x, c with
  | PInt a, PList l =>
      Ok (existsb (λ e, match e with PInt b => (a =? b)%Z | _ => false end) l)
  | _, _ => Raise TypeError
  end.

Definition info_self : MediaInfoSystem.object :=
  {| MediaInfoSystem.tmdb_api_key := Some "key";
     MediaInfoSystem.openai_api_key := None;
     MediaInfoSystem.watchmode_api_key := None |}.

Definition action_film : pyval :=
  PDict (<["title" := PStr "Heat"]> (<["genre_ids" := PList [PInt 28; PInt 80]]> ∅)).

Definition comedy_film : pyval :=
  PDict (<["title" := PStr "Amélie"]> (<["genre_ids" := PList [PInt 35]]> ∅)).

Definition drama_film : pyval :=
  PDict (<["title" := PStr "Ikiru"]> (<["genre_ids" := PList [PInt 18]]> ∅)).

(** * Properties *)

(** ** The built-ins on samples *)

Example split_date : split "-" "2016-07-15" = ["2016"; "07"; "15"].
Proof. reflexivity. Qed.
Example split_none : split "-" "2016" = ["2016"].
Proof. reflexivity. Qed.
Example split_lead : split "-" "-44" = [""; "44"].
Proof. reflexivity. Qed.
Example sorted_utf8 : sorted ["émissions"; "drama"; "zoo"] = ["drama"; "zoo"; "émissions"].
Proof. vm_compute. reflexivity. Qed.

(** On ASCII text the tables are not consulted. *)
Example int_2016 `{Unicode} : int_of_str "2016" = Some 2016%Z.
Proof. reflexivity. Qed.
Example int_spaced `{Unicode} : int_of_str " +1_999 " = Some 1999%Z.
Proof. reflexivity. Qed.
Example int_tba `{Unicode} : int_of_str "TBA" = None.
Proof. reflexivity. Qed.
Example int_empty `{Unicode} : int_of_str "" = None.
Proof. reflexivity. Qed.
Example lower_scifi `{Unicode} : lower "Sci-Fi" = "sci-fi".
Proof. reflexivity. Qed.

(** Beyond ASCII, with the tables of the samples. *)
Example lower_latin1 : @lower sample_tables "COMÉDIE" = "comédie".
Proof. reflexivity. Qed.
Example int_full_width : @int_of_str sample_tables "２０２０" = Some 2020%Z.
Proof. reflexivity. Qed.
Example sorted_names : sorted ["drama"; "action"; "comedy"] = ["action"; "comedy"; "drama"].
Proof. vm_compute. reflexivity. Qed.
Example slice_last : py_slice [1; 2; 3; 4; 5; 6; 7] 5 10 = [6; 7].
Proof. reflexivity. Qed.

(** ** Conversion of the results *)

Lemma pd_DataFrame_entries data : entry <$> pd_DataFrame data = data.
Proof.
  unfold pd_DataFrame. rewrite <- list_fmap_compose. apply list_fmap_id.
Qed.

Lemma pd_DataFrame_length data : length (pd_DataFrame data) = length data.
Proof. apply length_fmap. Qed.

Lemma pd_DataFrame_search_data data :
  Forall (λ r, search_data r = data) (pd_DataFrame data).
Proof. unfold pd_DataFrame. apply Forall_fmap, Forall_true. done. Qed.

Section Conversion.

Context `{Unicode}.

Lemma convert_results_list items :
  convert_results_to_dataframe (PList items) =
    (data ← convert_items items; Ok (pd_DataFrame data)).
Proof. reflexivity. Qed.

Lemma split_nonempty sep s : split sep s ≠ [].
Proof.
  destruct s as [|c s]; simpl; [done|].
  destruct (Ascii.eqb c sep); [done|]. by destruct (split sep s).
Qed.

Lemma split_head sep s : split sep s !! 0 = Some (default "" (head (split sep s))).
Proof.
  pose proof (split_nonempty sep s) as Hne.
  by destruct (split sep s).
Qed.

(** The conversion of a dictionary, by the shape of its date. *)
Lemma convert_item_dict d :
  convert_item (PDict d) =
    match date_field d with
    | PStr s =>
        if truthy (PStr s) then
          match int_of_str (leading_segment s) with
          | Some y => Ok (row_of d (Some y))
          | None => Raise ValueError
          end
        else Ok (row_of d None)
    | v => if truthy v then Raise AttributeError else Ok (row_of d None)
    end.
Proof.
  unfold convert_item, date_field, py_or, py_get, dict_get, leading_segment, py_int.
  set (rd := default PNone (d !! "release_date")).
  set (fa := default PNone (d !! "first_air_date")).
  assert (Hrow : ∀ y,
    Ok {| title := default (default (PStr "N/A") (d !! "name")) (d !! "title");
          release_year := y;
          overview := default (PStr "No overview") (d !! "overview");
          popularity := default (PInt 0) (d !! "popularity") |}
    = Ok (row_of d y)).
  { intros y. unfold row_of, title_of, overview_of, popularity_of.
    by destruct (d !! "title"), (d !! "name"), (d !! "overview"), (d !! "popularity"). }
  cbn [mbind result_bind rbind].
  destruct (truthy rd) eqn:Hrd; cbn [mbind result_bind rbind].
  - rewrite Hrd.
    destruct rd as [| | | |s| |]; rewrite ?Hrd; try done.
    cbn [py_split mbind result_bind rbind]. rewrite split_head.
    destruct (int_of_str _); cbn [mbind result_bind rbind]; [apply Hrow|done].
  - destruct (truthy fa) eqn:Hfa; cbn [mbind result_bind rbind].
    + destruct fa as [| | | |s| |]; rewrite ?Hfa; try done.
      cbn [py_split mbind result_bind rbind]. rewrite split_head.
      destruct (int_of_str _); cbn [mbind result_bind rbind]; [apply Hrow|done].
    + rewrite Hrow. destruct fa; by rewrite ?Hfa.
Qed.

Lemma convert_item_well_formed item :
  well_formed_item item = true → ∃ r, convert_item item = Ok r.
Proof.
  destruct item as [| | | | | |d]; try done.
  unfold well_formed_item. intros Hd. rewrite convert_item_dict.
  destruct (date_field d) as [| |z|f|s|l|m]; cbn [date_parses] in Hd;
    try (apply negb_true_iff in Hd; rewrite Hd; by eexists).
  destruct (truthy (PStr s)); [|by eexists].
  cbn [negb orb] in Hd. apply bool_decide_eq_true in Hd as [y Hy].
  rewrite Hy. by eexists.
Qed.

Lemma convert_items_well_formed items :
  forallb well_formed_item items = true →
  ∃ rows, convert_items items = Ok rows ∧
          Forall2 (λ item r, convert_item item = Ok r) items rows.
Proof.
  induction items as [|item items IH]; intros Hall.
  - exists []. by split; [|constructor].
  - cbn [forallb] in Hall. apply andb_true_iff in Hall as [Hitem Hrest].
    destruct (convert_item_well_formed item Hitem) as [r Hr].
    destruct (IH Hrest) as (rows & Hrows & Hall2).
    exists (r :: rows). split; [|by constructor].
    cbn [convert_items]. rewrite Hr, Hrows. done.
Qed.

Lemma convert_item_ill_formed item :
  well_formed_item item = false → ∃ e, convert_item item = Raise e.
Proof.
  destruct item as [| | | | | |d]; try (by eexists).
  unfold well_formed_item. intros Hd. rewrite convert_item_dict.
  destruct (date_field d) as [| |z|f|s|l|m]; cbn [date_parses] in Hd;
    try (apply negb_false_iff in Hd; rewrite Hd; by eexists).
  apply orb_false_iff in Hd as [Ht Hy].
  apply negb_false_iff in Ht. rewrite Ht.
  apply bool_decide_eq_false in Hy.
  destruct (int_of_str (leading_segment s)) as [y|]; [|by eexists].
  destruct Hy. by eexists.
Qed.

Lemma convert_items_ill_formed items :
  forallb well_formed_item items = false → ∃ e, convert_items items = Raise e.
Proof.
  induction items as [|item items IH]; [done|].
  cbn [forallb convert_items]. intros Hall.
  destruct (well_formed_item item) eqn:Hitem.
  - destruct (convert_item_well_formed item Hitem) as [r ->].
    destruct (IH Hall) as [e ->]. by exists e.
  - destruct (convert_item_ill_formed item Hitem) as [e ->]. by exists e.
Qed.

(** C2 (amended): for every sequence of items that are dictionaries whose
    date ([release_date] if truthy, else [first_air_date]) is falsy or text
    whose part before the first ['-'] [int] accepts, the conversion does not
    raise and returns a frame of exactly one row per item, in the order of
    the items: the i-th row is made from the dictionary the loop builds for
    the i-th item, and stands in the frame among the dictionaries of all
    the rows, by which pandas stores its cells.  On every other sequence
    the conversion raises. *)
Theorem convert_length_preserving (items : list pyval) :
  (forallb well_formed_item items = true →
   ∃ table, convert_results_to_dataframe (PList items) = Ok table ∧
            length table = length items ∧
            Forall2 (λ item r, convert_item item = Ok (entry r)) items table ∧
            Forall (λ r, search_data r = entry <$> table) table) ∧
  (forallb well_formed_item items = false →
   ∃ e, convert_results_to_dataframe (PList items) = Raise e).
Proof.
  rewrite convert_results_list. split.
  - intros Hall.
    destruct (convert_items_well_formed items Hall) as (rows & Hrows & Hall2).
    exists (pd_DataFrame rows). rewrite Hrows. split; [done|].
    rewrite pd_DataFrame_length, pd_DataFrame_entries.
    split; [symmetry; by eapply Forall2_length|]. split.
    + unfold pd_DataFrame. by apply Forall2_fmap_r.
    + apply pd_DataFrame_search_data.
  - intros Hall. destruct (convert_items_ill_formed items Hall) as [e ->].
    by exists e.
Qed.

(** C7 (amended): for every dictionary item, the title of its row is the
    [title] field, else the [name] field, else ["N/A"]; the overview is the
    [overview] field, else ["No overview"]; the popularity is the
    [popularity] field, else [0].  The date is [release_date] when truthy,
    else [first_air_date].  The year is absent when that date is falsy
    (both missing, [None] or empty); it is the integer [int] reads from the
    text before the first ['-'] when that text is an integer literal, of
    whatever length; when it is not, the conversion raises [ValueError]
    rather than leaving the year absent; and a truthy date that is no text
    raises [AttributeError]. *)
Theorem convert_item_fields (d : gmap string pyval) :
  (truthy (date_field d) = false →
     convert_item (PDict d) = Ok (row_of d None)) ∧
  (∀ s y, date_field d = PStr s → s ≠ "" →
     int_of_str (leading_segment s) = Some y →
     convert_item (PDict d) = Ok (row_of d (Some y))) ∧
  (∀ s, date_field d = PStr s → s ≠ "" →
     int_of_str (leading_segment s) = None →
     convert_item (PDict d) = Raise ValueError) ∧
  (truthy (date_field d) = true → (∀ s, date_field d ≠ PStr s) →
     convert_item (PDict d) = Raise AttributeError).
Proof.
  rewrite convert_item_dict. split; [|split; [|split]].
  - intros Hf. destruct (date_field d); by rewrite ?Hf.
  - intros s y -> Hs Hy. rewrite Hy. by destruct s.
  - intros s -> Hs Hy. rewrite Hy. by destruct s.
  - intros Ht Hs. destruct (date_field d) as [| | | |s| |]; rewrite ?Ht; try done.
    by destruct (Hs s).
Qed.

End Conversion.

Section ConversionSamples.

#[local] Existing Instance sample_tables.

(** C2, as stated, fails: a sequence of two items, the second with a date
    that is no number, raises [ValueError] instead of yielding two rows. *)
Lemma convert_raises_on_malformed_date :
  convert_results_to_dataframe (PList [movie_item; unaired_item]) = Raise ValueError.
Proof. vm_compute. reflexivity. Qed.

(** A movie and a series, the second dated in full-width digits, convert
    to two rows; a series with the date ["soon"] does not convert. *)
Lemma convert_length_preserving_witness :
  (∃ table, convert_results_to_dataframe
              (PList [movie_item; PDict wide_dated_item]) = Ok table ∧
            length table = 2 ∧
            Forall2 (λ item r, convert_item item = Ok (entry r))
              [movie_item; PDict wide_dated_item] table ∧
            Forall (λ r, search_data r = entry <$> table) table) ∧
  (∃ e, convert_results_to_dataframe (PList [PDict tv_item; unaired_item]) = Raise e).
Proof.
  split.
  - apply (proj1 (convert_length_preserving [movie_item; PDict wide_dated_item])).
    vm_compute. reflexivity.
  - apply (proj2 (convert_length_preserving [PDict tv_item; unaired_item])).
    vm_compute. reflexivity.
Defined.

(** C7, as stated, fails: a date that cannot be parsed does not give a row
    without a year, the conversion of the item raises [ValueError]. *)
Lemma convert_item_unparsable_date_raises :
  date_field undated_item = PStr "TBA" ∧
  convert_item (PDict undated_item) = Raise ValueError.
Proof. split; vm_compute; reflexivity. Qed.

(** An item without title, name and date; a series; a film dated in
    full-width digits; a film whose date is ["TBA"]. *)
Lemma convert_item_fields_witness :
  convert_item (PDict untitled_item) =
    Ok {| title := PStr "N/A"; release_year := None;
          overview := PStr "A pilot"; popularity := PInt 0 |} ∧
  convert_item (PDict tv_item) =
    Ok {| title := PStr "Stranger Things"; release_year := Some 2016%Z;
          overview := PStr "No overview"; popularity := PInt 0 |} ∧
  convert_item (PDict wide_dated_item) =
    Ok {| title := PStr "Dune"; release_year := Some 2020%Z;
          overview := PStr "No overview"; popularity := PInt 0 |} ∧
  convert_item (PDict undated_item) = Raise ValueError.
Proof.
  split; [|split; [|split]].
  - apply (proj1 (convert_item_fields untitled_item)).
    vm_compute. reflexivity.
  - apply (proj1 (proj2 (convert_item_fields tv_item)) "2016-07-15" 2016%Z).
    + vm_compute. reflexivity.
    + discriminate.
    + vm_compute. reflexivity.
  - apply (proj1 (proj2 (convert_item_fields wide_dated_item)) "２０２０-01-01" 2020%Z).
    + vm_compute. reflexivity.
    + discriminate.
    + vm_compute. reflexivity.
  - apply (proj1 (proj2 (proj2 (convert_item_fields undated_item))) "TBA").
    + vm_compute. reflexivity.
    + discriminate.
    + vm_compute. reflexivity.
Defined.

End ConversionSamples.

(** ** The three fetches *)

Section Fetches.

Context `{Unicode}.

Variable net : list request → request → option pyval.
Variable self : AdvancedMediaSearch.

Lemma try_fetch_run context r w :
  try_except
    (response ← get_json net r; lift (body_get response "results"))
    (λ e, _ ← emit (ErrorLine context e); ret (PList [])) w
  = (Ok (results_of (net (sent w) r)), after_fetch context r (net (sent w) r) w).
Proof.
  unfold try_except, mbind, M_bind, bind, get_json, lift, emit, ret,
    after_fetch, results_of, caught, body_get, py_get.
  cbn [sent out].
  destruct (net (sent w) r) as [body|]; [|done].
  destruct body; cbn [sent out]; try done.
  by rewrite app_nil_r.
Qed.

Lemma _basic_search_run query media_type w :
  _basic_search net self query media_type w =
    (Ok (results_of (net (sent w) (search_request self query media_type))),
     after_fetch "Error in basic search" (search_request self query media_type)
       (net (sent w) (search_request self query media_type)) w).
Proof. apply try_fetch_run. Qed.

Lemma fetch_by_year_run year media_type w :
  fetch_by_year net self year media_type w =
    (Ok (results_of (net (sent w) (year_request self year media_type))),
     after_fetch "Error fetching by year" (year_request self year media_type)
       (net (sent w) (year_request self year media_type)) w).
Proof. apply try_fetch_run. Qed.

Lemma fetch_by_genre_known g media_type release_year genre_id w :
  genre_map_for self media_type !! lower g = Some genre_id →
  fetch_by_genre net self (PStr g) media_type release_year w =
    (Ok (results_of (net (sent w) (genre_request self genre_id media_type release_year))),
     after_fetch "Error fetching by genre"
       (genre_request self genre_id media_type release_year)
       (net (sent w) (genre_request self genre_id media_type release_year)) w).
Proof. intros Hid. unfold fetch_by_genre. rewrite Hid. apply try_fetch_run. Qed.

Lemma fetch_by_genre_unknown g media_type release_year w :
  genre_map_for self media_type !! lower g = None →
  fetch_by_genre net self (PStr g) media_type release_year w =
    (Ok (PList []), genre_not_found self g media_type w).
Proof.
  intros Hid. unfold fetch_by_genre. rewrite Hid.
  unfold mbind, M_bind, bind, print, emit, ret, genre_not_found.
  cbn [out sent]. by rewrite <- app_assoc.
Qed.

Lemma advanced_search_unfold query media_type filters w :
  advanced_search net self query media_type filters w =
    let genre := genre_filter filters in
    let year := year_filter filters in
    let fetch :=
      if truthy genre then fetch_by_genre net self genre media_type year
      else if truthy year then fetch_by_year net self year media_type
      else _basic_search net self query media_type in
    match fetch w with
    | (Ok results, w') => (convert_results_to_dataframe results, w')
    | (Raise e, w') => (Raise e, w')
    end.
Proof. reflexivity. Qed.

Lemma truthy_str g : g ≠ "" → truthy (PStr g) = true.
Proof. by destruct g. Qed.

Lemma advanced_search_genre_known query media_type filters g genre_id w :
  genre_filter filters = PStr g → g ≠ "" →
  genre_map_for self media_type !! lower g = Some genre_id →
  advanced_search net self query media_type filters w =
    served net "Error fetching by genre"
      (genre_request self genre_id media_type (year_filter filters)) w.
Proof.
  intros Hg Hne Hid. rewrite advanced_search_unfold. cbn zeta.
  rewrite Hg, (truthy_str g Hne), (fetch_by_genre_known _ _ _ _ _ Hid). done.
Qed.

Lemma advanced_search_genre_unknown query media_type filters g w :
  genre_filter filters = PStr g → g ≠ "" →
  genre_map_for self media_type !! lower g = None →
  advanced_search net self query media_type filters w =
    (Ok [], genre_not_found self g media_type w).
Proof.
  intros Hg Hne Hid. rewrite advanced_search_unfold. cbn zeta.
  rewrite Hg, (truthy_str g Hne), (fetch_by_genre_unknown _ _ _ _ Hid). done.
Qed.

Lemma advanced_search_year_only query media_type filters w :
  truthy (genre_filter filters) = false →
  truthy (year_filter filters) = true →
  advanced_search net self query media_type filters w =
    served net "Error fetching by year"
      (year_request self (year_filter filters) media_type) w.
Proof.
  intros Hg Hy. rewrite advanced_search_unfold. cbn zeta.
  rewrite Hg, Hy, fetch_by_year_run. done.
Qed.

Lemma advanced_search_plain query media_type filters w :
  truthy (genre_filter filters) = false →
  truthy (year_filter filters) = false →
  advanced_search net self query media_type filters w =
    served net "Error in basic search" (search_request self query media_type) w.
Proof.
  intros Hg Hy. rewrite advanced_search_unfold. cbn zeta.
  rewrite Hg, Hy, _basic_search_run. done.
Qed.

End Fetches.

(** ** The requests *)

Lemma genre_map_for_other self media_type :
  media_type ≠ "movie" → genre_map_for self media_type = tv_genres self.
Proof.
  intros Hne. unfold genre_map_for.
  destruct (String.eqb_spec media_type "movie"); [done|reflexivity].
Qed.

Lemma year_key_cases media_type :
  (media_type = "movie" ∧ year_key media_type = "primary_release_year") ∨
  (media_type ≠ "movie" ∧ year_key media_type = "first_air_date_year").
Proof.
  unfold year_key. destruct (String.eqb_spec media_type "movie"); auto.
Qed.

Lemma search_request_params self query media_type :
  dom (params (search_request self query media_type))
    = ({[ "api_key"; "query"; "language"; "page" ]} : gset string) ∧
  params (search_request self query media_type) !! "query" = Some (PStr query).
Proof.
  unfold search_request; cbn [params]. split.
  - rewrite !dom_insert_L, dom_empty_L. set_solver.
  - by simplify_map_eq.
Qed.

Lemma year_request_params self year media_type :
  dom (params (year_request self year media_type))
    = ({[ "api_key"; "language"; "page"; year_key media_type ]} : gset string) ∧
  params (year_request self year media_type) !! year_key media_type = Some year.
Proof.
  unfold year_request; cbn [params].
  destruct (year_key_cases media_type) as [[_ ->]|[_ ->]]; split;
    first [by simplify_map_eq | rewrite !dom_insert_L, dom_empty_L; set_solver].
Qed.

Lemma genre_request_params self genre_id media_type year :
  dom (params (genre_request self genre_id media_type year))
    = ({[ "api_key"; "with_genres"; "language"; "page" ]}
       ∪ (if truthy year then {[ year_key media_type ]} else ∅) : gset string) ∧
  params (genre_request self genre_id media_type year) !! "with_genres"
    = Some genre_id ∧
  params (genre_request self genre_id media_type year) !! year_key media_type
    = (if truthy year then Some year else None).
Proof.
  unfold genre_request; cbn [params].
  destruct (year_key_cases media_type) as [[_ ->]|[_ ->]];
    destruct (truthy year);
    (split; [rewrite !dom_insert_L, dom_empty_L; set_solver
            |split; by simplify_map_eq]).
Qed.

Lemma year_request_years self year media_type :
  movie_year (year_request self year media_type)
    = (if String.eqb media_type "movie" then Some year else None) ∧
  tv_year (year_request self year media_type)
    = (if String.eqb media_type "movie" then None else Some year).
Proof.
  unfold movie_year, tv_year, year_request, year_key; cbn [params].
  destruct (String.eqb media_type "movie"); split; by simplify_map_eq.
Qed.

Lemma genre_request_years self genre_id media_type year :
  movie_year (genre_request self genre_id media_type year)
    = (if truthy year && String.eqb media_type "movie" then Some year else None) ∧
  tv_year (genre_request self genre_id media_type year)
    = (if truthy year && negb (String.eqb media_type "movie") then Some year else None).
Proof.
  unfold movie_year, tv_year, genre_request, year_key; cbn [params].
  destruct (truthy year), (String.eqb media_type "movie"); split; by simplify_map_eq.
Qed.

(** ** advanced_search *)

Section Search.

Context `{Unicode}.

Variable net : list request → request → option pyval.
Variable self : AdvancedMediaSearch.

(** C10: when a filter is set, the free-text query is ignored: for every
    two queries, every media category and every filter dictionary whose
    genre or release year is truthy, the two searches send the same
    request, print the same and return the same. *)
Theorem query_ignored_under_filters (q1 q2 media_type : string)
    (filters : option (gmap string pyval)) (w : world) :
  truthy (genre_filter filters) || truthy (year_filter filters) = true →
  advanced_search net self q1 media_type filters w =
  advanced_search net self q2 media_type filters w.
Proof.
  intros Hset. rewrite !advanced_search_unfold. cbn zeta.
  destruct (truthy (genre_filter filters)); [done|].
  destruct (truthy (year_filter filters)); [done|discriminate].
Qed.

(** C3 (amended): for every query text and filter dictionary,
    [advanced_search] takes one branch, in this order.  If the genre filter
    is truthy (a non-empty name) and resolves, it sends one discover request
    with the genre identifier, and with the year under the category's key
    exactly when the release year is truthy; if it does not resolve, no
    request is sent and the table is empty.  Else, if the release year is
    truthy (not [None], not [0]), it sends one discover request whose only
    filter is the year.  Else, also when a filter is present but falsy, it
    sends one search request with the free-text query. *)
Theorem advanced_search_precedence (query media_type : string)
    (filters : option (gmap string pyval)) (w : world) :
  let genre := genre_filter filters in
  let year := year_filter filters in
  let run := advanced_search net self query media_type filters w in
  (∀ g genre_id,
     genre = PStr g → g ≠ "" →
     genre_map_for self media_type !! lower g = Some genre_id →
     ∃ r, run = served net "Error fetching by genre" r w ∧
          sent run.2 = sent w ++ [r] ∧
          url r = tmdb_base_url self +:+ "/discover/" +:+ media_type ∧
          dom (params r)
            = ({[ "api_key"; "with_genres"; "language"; "page" ]}
               ∪ (if truthy year then {[ year_key media_type ]} else ∅) : gset string) ∧
          params r !! "with_genres" = Some genre_id ∧
          params r !! year_key media_type = (if truthy year then Some year else None)) ∧
  (∀ g,
     genre = PStr g → g ≠ "" →
     genre_map_for self media_type !! lower g = None →
     run = (Ok [], genre_not_found self g media_type w) ∧ sent run.2 = sent w) ∧
  (truthy genre = false → truthy year = true →
     ∃ r, run = served net "Error fetching by year" r w ∧
          sent run.2 = sent w ++ [r] ∧
          url r = tmdb_base_url self +:+ "/discover/" +:+ media_type ∧
          dom (params r)
            = ({[ "api_key"; "language"; "page"; year_key media_type ]} : gset string) ∧
          params r !! year_key media_type = Some year) ∧
  (truthy genre = false → truthy year = false →
     ∃ r, run = served net "Error in basic search" r w ∧
          sent run.2 = sent w ++ [r] ∧
          url r = tmdb_base_url self +:+ "/search/" +:+ media_type ∧
          dom (params r)
            = ({[ "api_key"; "query"; "language"; "page" ]} : gset string) ∧
          params r !! "query" = Some (PStr query)).
Proof.
  cbn zeta. split; [|split; [|split]].
  - intros g genre_id Hg Hne Hid.
    exists (genre_request self genre_id media_type (year_filter filters)).
    rewrite (advanced_search_genre_known net self _ _ _ _ _ _ Hg Hne Hid).
    destruct (genre_request_params self genre_id media_type (year_filter filters))
      as (Hdom & Hgenre & Hyear).
    by repeat split.
  - intros g Hg Hne Hid.
    by rewrite (advanced_search_genre_unknown net self _ _ _ _ _ Hg Hne Hid).
  - intros Hg Hy.
    exists (year_request self (year_filter filters) media_type).
    rewrite (advanced_search_year_only net self _ _ _ _ Hg Hy).
    destruct (year_request_params self (year_filter filters) media_type)
      as (Hdom & Hyear).
    by repeat split.
  - intros Hg Hy.
    exists (search_request self query media_type).
    rewrite (advanced_search_plain net self _ _ _ _ Hg Hy).
    destruct (search_request_params self query media_type) as (Hdom & Hq).
    by repeat split.
Qed.

(** C1 (amended): [advanced_search] does not validate the media category.
    For every category other than ["movie"], recognized or not, no error is
    raised on its account: the search is planned as for tv (the tv genre
    map, the key [first_air_date_year], never [primary_release_year]) and
    the category is written as it is into the path of the request. *)
Theorem category_not_validated (query media_type : string)
    (filters : option (gmap string pyval)) (w : world) :
  media_type ≠ "movie" →
  let genre := genre_filter filters in
  let year := year_filter filters in
  let run := advanced_search net self query media_type filters w in
  genre_map_for self media_type = tv_genres self ∧
  (truthy genre = false → truthy year = false →
     ∃ r, run = served net "Error in basic search" r w ∧
          url r = tmdb_base_url self +:+ "/search/" +:+ media_type ∧
          params r !! "query" = Some (PStr query)) ∧
  (truthy genre = false → truthy year = true →
     ∃ r, run = served net "Error fetching by year" r w ∧
          url r = tmdb_base_url self +:+ "/discover/" +:+ media_type ∧
          tv_year r = Some year ∧ movie_year r = None) ∧
  (∀ g genre_id,
     genre = PStr g → g ≠ "" → tv_genres self !! lower g = Some genre_id →
     ∃ r, run = served net "Error fetching by genre" r w ∧
          url r = tmdb_base_url self +:+ "/discover/" +:+ media_type ∧
          params r !! "with_genres" = Some genre_id ∧
          tv_year r = (if truthy year then Some year else None) ∧
          movie_year r = None) ∧
  (∀ g,
     genre = PStr g → g ≠ "" → tv_genres self !! lower g = None →
     run = (Ok [], genre_not_found self g media_type w)).
Proof.
  intros Hne. cbn zeta.
  pose proof (genre_map_for_other self media_type Hne) as Hmap.
  assert (Heqb : String.eqb media_type "movie" = false)
    by (by apply String.eqb_neq).
  split; [exact Hmap|]. split; [|split; [|split]].
  - intros Hg Hy. exists (search_request self query media_type).
    rewrite (advanced_search_plain net self _ _ _ _ Hg Hy).
    by destruct (search_request_params self query media_type).
  - intros Hg Hy. exists (year_request self (year_filter filters) media_type).
    rewrite (advanced_search_year_only net self _ _ _ _ Hg Hy).
    destruct (year_request_years self (year_filter filters) media_type) as [Hm Ht].
    rewrite Heqb in Hm, Ht. done.
  - intros g genre_id Hg Hnonempty Hid. rewrite <- Hmap in Hid.
    exists (genre_request self genre_id media_type (year_filter filters)).
    rewrite (advanced_search_genre_known net self _ _ _ _ _ _ Hg Hnonempty Hid).
    destruct (genre_request_years self genre_id media_type (year_filter filters))
      as [Hm Ht].
    destruct (genre_request_params self genre_id media_type (year_filter filters))
      as (_ & Hgenre & _).
    rewrite Heqb in Hm, Ht. rewrite andb_false_r in Hm. rewrite andb_true_r in Ht.
    done.
  - intros g Hg Hnonempty Hid. rewrite <- Hmap in Hid.
    apply (advanced_search_genre_unknown net self _ _ _ _ _ Hg Hnonempty Hid).
Qed.

(** C4: for every fetch of the recognized categories, the year of a
    discover request is under [primary_release_year] exactly when the
    category is movie and under [first_air_date_year] exactly when it is
    tv: [fetch_by_year] always sends the year, and under that key only;
    [fetch_by_genre] does so when the year is truthy, and sends no year
    under either key when it is not. *)
Theorem year_key_matches_category (media_type : string) (w : world) :
  media_type = "movie" ∨ media_type = "tv" →
  (∀ year,
     ∃ r, sent (fetch_by_year net self year media_type w).2 = sent w ++ [r] ∧
          (movie_year r = Some year ↔ media_type = "movie") ∧
          (tv_year r = Some year ↔ media_type = "tv") ∧
          (movie_year r = None ∨ tv_year r = None)) ∧
  (∀ g genre_id year,
     genre_map_for self media_type !! lower g = Some genre_id →
     ∃ r, sent (fetch_by_genre net self (PStr g) media_type year w).2 = sent w ++ [r] ∧
          (truthy year = true →
             (movie_year r = Some year ↔ media_type = "movie") ∧
             (tv_year r = Some year ↔ media_type = "tv") ∧
             (movie_year r = None ∨ tv_year r = None)) ∧
          (truthy year = false → movie_year r = None ∧ tv_year r = None)).
Proof.
  intros Hcat. split.
  - intros year. exists (year_request self year media_type).
    rewrite fetch_by_year_run. split; [reflexivity|].
    destruct (year_request_years self year media_type) as [-> ->].
    destruct Hcat as [-> | ->]; cbn; naive_solver.
  - intros g genre_id year Hid.
    exists (genre_request self genre_id media_type year).
    rewrite (fetch_by_genre_known net self _ _ _ _ _ Hid). split; [reflexivity|].
    destruct (genre_request_years self genre_id media_type year) as [-> ->].
    destruct Hcat as [-> | ->]; split; intros ->; cbn; naive_solver.
Qed.

End Search.

Section SearchSamples.

#[local] Existing Instance sample_tables.

(** Two queries under the same genre filter. *)
Lemma query_ignored_under_filters_witness :
  truthy (genre_filter (Some comedy_filters)) || truthy (year_filter (Some comedy_filters)) = true ∧
  advanced_search sample_net sample_self "Dune" "movie" (Some comedy_filters) quiet =
  advanced_search sample_net sample_self "Alien" "movie" (Some comedy_filters) quiet.
Proof.
  split; [vm_compute; reflexivity|].
  apply (query_ignored_under_filters sample_net sample_self "Dune" "Alien" "movie"
           (Some comedy_filters) quiet).
  vm_compute. reflexivity.
Defined.

(** C3, as stated, fails: with the release year [0] as the only filter
    present, the search sends the plain search request with the query, no
    discover request with the year. *)
Lemma present_year_zero_is_searched :
  zero_year_filters !! "release_year" = Some (PInt 0) ∧
  zero_year_filters !! "genre" = None ∧
  advanced_search sample_net sample_self "Dune" "movie" (Some zero_year_filters) quiet
    = (Ok (pd_DataFrame [dune_row]),
       {| out := []; sent := [search_request sample_self "Dune" "movie"] |}) ∧
  url (search_request sample_self "Dune" "movie")
    = "https://api.themoviedb.org/3/search/movie".
Proof. repeat split; vm_compute; reflexivity. Qed.

(** The three branches on the sample catalogue. *)
Lemma advanced_search_precedence_witness :
  (∃ r, advanced_search sample_net sample_self "Dune" "movie" (Some comedy_filters) quiet
          = served sample_net "Error fetching by genre" r quiet ∧
        sent (advanced_search sample_net sample_self "Dune" "movie"
                (Some comedy_filters) quiet).2 = [r] ∧
        url r = "https://api.themoviedb.org/3/discover/movie" ∧
        dom (params r)
          = ({[ "api_key"; "with_genres"; "language"; "page" ]}
             ∪ {[ "primary_release_year" ]} : gset string) ∧
        params r !! "with_genres" = Some (PInt 35) ∧
        params r !! "primary_release_year" = Some (PInt 2020)) ∧
  (∃ r, advanced_search sample_net sample_self "Dune" "tv" (Some year_filters) quiet
          = served sample_net "Error fetching by year" r quiet ∧
        sent (advanced_search sample_net sample_self "Dune" "tv"
                (Some year_filters) quiet).2 = [r] ∧
        url r = "https://api.themoviedb.org/3/discover/tv" ∧
        dom (params r)
          = ({[ "api_key"; "language"; "page"; "first_air_date_year" ]} : gset string) ∧
        params r !! "first_air_date_year" = Some (PInt 1999)) ∧
  (∃ r, advanced_search sample_net sample_self "Dune" "movie" None quiet
          = served sample_net "Error in basic search" r quiet ∧
        sent (advanced_search sample_net sample_self "Dune" "movie" None quiet).2 = [r] ∧
        url r = "https://api.themoviedb.org/3/search/movie" ∧
        dom (params r) = ({[ "api_key"; "query"; "language"; "page" ]} : gset string) ∧
        params r !! "query" = Some (PStr "Dune")).
Proof.
  split; [|split].
  - apply (proj1 (advanced_search_precedence sample_net sample_self "Dune" "movie"
                    (Some comedy_filters) quiet) "Comedy" (PInt 35));
      [vm_compute; reflexivity | discriminate | vm_compute; reflexivity].
  - apply (proj1 (proj2 (proj2 (advanced_search_precedence sample_net sample_self
                    "Dune" "tv" (Some year_filters) quiet)))); vm_compute; reflexivity.
  - apply (proj2 (proj2 (proj2 (advanced_search_precedence sample_net sample_self
                    "Dune" "movie" None quiet)))); vm_compute; reflexivity.
Defined.

(** C1, as stated, fails: the category ["book"] is neither movie nor tv, and
    the search is not refused: the request goes out to [/search/book] and
    its answer is returned as a table. *)
Lemma unrecognized_category_is_searched :
  advanced_search sample_net sample_self "Dune" "book" None quiet
    = (Ok (pd_DataFrame [dune_row]),
       {| out := []; sent := [search_request sample_self "Dune" "book"] |}) ∧
  url (search_request sample_self "Dune" "book")
    = "https://api.themoviedb.org/3/search/book".
Proof. split; vm_compute; reflexivity. Qed.

(** The category ["book"] with a release year: a discover request for
    [/discover/book] with the year under the tv key. *)
Lemma category_not_validated_witness :
  "book" ≠ "movie" ∧
  ∃ r, advanced_search sample_net sample_self "Dune" "book" (Some year_filters) quiet
         = served sample_net "Error fetching by year" r quiet ∧
       url r = "https://api.themoviedb.org/3/discover/book" ∧
       tv_year r = Some (PInt 1999) ∧ movie_year r = None.
Proof.
  split; [discriminate|].
  apply (proj1 (proj2 (proj2
    (category_not_validated sample_net sample_self "Dune" "book"
       (Some year_filters) quiet ltac:(discriminate)))));
    vm_compute; reflexivity.
Defined.

(** A fetch by year for tv. *)
Lemma year_key_matches_category_witness :
  ("tv" = "movie" ∨ "tv" = "tv") ∧
  ∃ r, sent (fetch_by_year sample_net sample_self (PInt 1999) "tv" quiet).2
         = sent quiet ++ [r] ∧
       (movie_year r = Some (PInt 1999) ↔ "tv" = "movie") ∧
       (tv_year r = Some (PInt 1999) ↔ "tv" = "tv") ∧
       (movie_year r = None ∨ tv_year r = None).
Proof.
  split; [right; reflexivity|].
  apply (proj1 (year_key_matches_category sample_net sample_self "tv" quiet
                  (or_intror eq_refl)) (PInt 1999)).
Defined.

End SearchSamples.

(** ** The genre catalogue *)

Section CatalogueKeys.

Context `{Unicode}.




End CatalogueKeys.

Lemma sorted_names_spec (m : gmap string pyval) :
  let names := sorted (map_to_list m).*1 in
  Sorted String.le names ∧ NoDup names ∧ (∀ k, k ∈ names ↔ is_Some (m !! k)).
Proof.
  cbn zeta. unfold sorted. split; [|split].
  - apply (Sorted_merge_sort String.le).
  - rewrite merge_sort_Permutation. apply NoDup_fst_map_to_list.
  - intros k. rewrite merge_sort_Permutation, list_elem_of_fmap. split.
    + intros ([k' v] & -> & Hin). apply elem_of_map_to_list in Hin. by eexists.
    + intros [v Hv]. exists (k, v). split; [done|]. by apply elem_of_map_to_list.
Qed.

Section Catalogue.

Context `{Unicode}.

Variable net : list request → request → option pyval.
Variable self : AdvancedMediaSearch.

(** C5 (amended): for every genre name whose lower-case form is no key of
    the genre map of the category, [fetch_by_genre] returns the empty list,
    and nothing with it, at once: it sends no request.  The known genre
    names of that category are not returned: they are printed after the
    notice, each once, in ascending order, one to a line.
    [advanced_search] then returns an empty table. *)
Theorem unknown_genre_sends_nothing (g media_type : string) (year : pyval)
    (w : world) :
  genre_map_for self media_type !! lower g = None →
  let names := sorted (map_to_list (genre_map_for self media_type)).*1 in
  let run := fetch_by_genre net self (PStr g) media_type year w in
  run.1 = Ok (PList []) ∧
  sent run.2 = sent w ∧
  out run.2 = out w ++
    [Line ("Genre '" +:+ g +:+ "' not found. Available genres:");
     Line (join newline names)] ∧
  Sorted String.le names ∧ NoDup names ∧
  (∀ k, k ∈ names ↔ is_Some (genre_map_for self media_type !! k)) ∧
  (∀ query filters,
     genre_filter filters = PStr g → g ≠ "" →
     advanced_search net self query media_type filters w = (Ok [], run.2)).
Proof.
  intros Hid. cbn zeta.
  rewrite (fetch_by_genre_unknown net self _ _ _ _ Hid).
  destruct (sorted_names_spec (genre_map_for self media_type)) as (Hs & Hn & Hk).
  repeat split; try done; try apply Hk.
  intros query filters Hg Hne.
  apply (advanced_search_genre_unknown net self _ _ _ _ _ Hg Hne Hid).
Qed.


End Catalogue.

Section CatalogueSamples.

#[local] Existing Instance sample_tables.

(** C5, as stated, fails: the known genre names are not returned together
    with the empty result.  ["Western"] is unknown among the movie genres
    of the sample, [comedy] and [sci-fi]; what [fetch_by_genre] returns is
    the empty list and nothing else, and the two names are only printed. *)
Lemma unknown_genre_returns_no_names :
  sorted (map_to_list (genre_map_for sample_self "movie")).*1 = ["comedy"; "sci-fi"] ∧
  fetch_by_genre sample_net sample_self (PStr "Western") "movie" PNone quiet =
    (Ok (PList []),
     {| out := [Line "Genre 'Western' not found. Available genres:";
                Line (join newline ["comedy"; "sci-fi"])];
        sent := [] |}).
Proof. split; vm_compute; reflexivity. Qed.

(** ["Western"] is not in the sample catalogue of movies. *)
Lemma unknown_genre_sends_nothing_witness :
  genre_map_for sample_self "movie" !! lower "Western" = None ∧
  (fetch_by_genre sample_net sample_self (PStr "Western") "movie" PNone quiet).1
    = Ok (PList []) ∧
  sent (fetch_by_genre sample_net sample_self (PStr "Western") "movie" PNone quiet).2
    = [] ∧
  out (fetch_by_genre sample_net sample_self (PStr "Western") "movie" PNone quiet).2
    = [Line "Genre 'Western' not found. Available genres:";
       Line (join newline ["comedy"; "sci-fi"])].
Proof.
  split; [vm_compute; reflexivity|].
  pose proof (unknown_genre_sends_nothing sample_net sample_self "Western" "movie"
                PNone quiet ltac:(vm_compute; reflexivity)) as (H1 & H2 & H3 & _).
  split; [exact H1|]. split; [exact H2|]. exact H3.
Defined.


End CatalogueSamples.

(** ** Construction of the catalogue *)

Section Construction.

Context `{Unicode}.

Variable net : list request → request → option pyval.

Lemma _get_genre_mappings_run base_url api_key media_type w :
  _get_genre_mappings net base_url api_key media_type w =
    let r := genre_list_request base_url api_key media_type in
    (Ok (catalogue_of (net (sent w) r)),
     {| out := out w ++
          match catalogue_error (net (sent w) r) with
          | Some e => [ErrorLine ("Error fetching " +:+ media_type +:+ " genres") e]
          | None => []
          end;
        sent := sent w ++ [r] |}).
Proof.
  unfold _get_genre_mappings, try_except, mbind, M_bind, bind, get_json, lift,
    emit, ret, catalogue_of, catalogue_error.
  cbn [sent out].
  destruct (net (sent w) _) as [body|]; [|done].
  destruct (parse_genres body); cbn [sent out]; [|done].
  by rewrite app_nil_r.
Qed.

Lemma parse_genres_not_dict body :
  (∀ d, body ≠ PDict d) → parse_genres body = Raise AttributeError.
Proof. intros Hd. destruct body; try done. by destruct (Hd d). Qed.

Lemma fetch_failed_empty answer : fetch_failed answer → catalogue_of answer = ∅.
Proof.
  destruct answer as [body|]; [|done]. unfold fetch_failed, catalogue_of.
  by destruct (parse_genres body).
Qed.

(** C9: the construction of the genre catalogue never raises.  Whatever the
    upstream answers, [_get_genre_mappings] returns a map, and the
    constructor returns an object; when the fetch of a category's genre
    list fails (the call or the decoding raises, or the payload is not of
    the expected shape, for one not a dictionary), the map of that category
    is empty; and against an empty map every genre name is reported as not
    found, without a request and without an exception. *)
Theorem catalogue_degrades_to_empty (env : gmap string string) (w : world) :
  let base := "https://api.themoviedb.org/3" in
  let key := getenv env "TMDB_API_KEY" in
  let movie_answer := net (sent w) (genre_list_request base key "movie") in
  let tv_answer :=
    net (sent w ++ [genre_list_request base key "movie"])
        (genre_list_request base key "tv") in
  (∀ base_url api_key media_type w0,
     (_get_genre_mappings net base_url api_key media_type w0).1 =
       Ok (catalogue_of (net (sent w0) (genre_list_request base_url api_key media_type)))) ∧
  (∀ answer, fetch_failed answer → catalogue_of answer = ∅) ∧
  (∀ body, (∀ d, body ≠ PDict d) → fetch_failed (Some body)) ∧
  (∀ d : gmap string pyval,
     d !! "genres" = None → catalogue_of (Some (PDict d)) = ∅) ∧
  (∃ self w',
     init net env w = (Ok self, w') ∧
     movie_genres self = catalogue_of movie_answer ∧
     tv_genres self = catalogue_of tv_answer ∧
     (fetch_failed movie_answer → movie_genres self = ∅) ∧
     (fetch_failed tv_answer → tv_genres self = ∅)) ∧
  (∀ self g media_type year w0,
     genre_map_for self media_type = ∅ →
     ∃ w1, fetch_by_genre net self (PStr g) media_type year w0 = (Ok (PList []), w1) ∧
           sent w1 = sent w0).
Proof.
  cbn zeta. split; [|split; [|split; [|split; [|split]]]].
  - intros. by rewrite _get_genre_mappings_run.
  - apply fetch_failed_empty.
  - intros body Hd. unfold fetch_failed. by rewrite parse_genres_not_dict.
  - intros d Hd. unfold catalogue_of, parse_genres, py_get, dict_get.
    by rewrite Hd.
  - unfold init, mbind, M_bind, bind.
    rewrite _get_genre_mappings_run. cbn beta iota zeta.
    rewrite _get_genre_mappings_run. cbn beta iota zeta. cbn [sent out ret].
    eexists _, _. split; [reflexivity|]. cbn [movie_genres tv_genres].
    split; [done|]. split; [done|]. split; apply fetch_failed_empty.
  - intros self g media_type year w0 Hempty.
    eexists. rewrite (fetch_by_genre_unknown net self).
    + split; reflexivity.
    + by rewrite Hempty, lookup_empty.
Qed.

End Construction.

Section ConstructionSamples.

#[local] Existing Instance sample_tables.

(** An upstream that is down, and an object whose catalogues are empty. *)
Lemma catalogue_degrades_to_empty_witness :
  fetch_failed (offline_net [] (genre_list_request "https://api.themoviedb.org/3" PNone "movie")) ∧
  catalogue_of (offline_net [] (genre_list_request "https://api.themoviedb.org/3" PNone "movie")) = ∅ ∧
  genre_map_for bare_self "tv" = ∅ ∧
  ∃ w1, fetch_by_genre offline_net bare_self (PStr "Comedy") "tv" PNone quiet
          = (Ok (PList []), w1) ∧ sent w1 = sent quiet.
Proof.
  split; [exact I|]. split; [|split; [reflexivity|]].
  - apply (proj1 (proj2 (catalogue_degrades_to_empty offline_net ∅ quiet))).
    exact I.
  - apply (proj2 (proj2 (proj2 (proj2 (proj2
             (catalogue_degrades_to_empty offline_net ∅ quiet)))))).
    reflexivity.
Defined.

End ConstructionSamples.

(** ** Pagination *)

Lemma total_pages_ceiling (results : DataFrame) :
  (page_size * (total_pages results - 1) < Z.of_nat (length results)
   ≤ page_size * total_pages results)%Z.
Proof.
  unfold total_pages, page_size.
  pose proof (Z.div_mod (Z.of_nat (length results) + 5 - 1) 5 ltac:(done)).
  pose proof (Z.mod_pos_bound (Z.of_nat (length results) + 5 - 1) 5 ltac:(done)).
  lia.
Qed.

Lemma navigate_in_range total current_page nav :
  (1 ≤ current_page ≤ total)%Z →
  match (navigate total current_page nav).1 with
  | Goto page => (1 ≤ page ≤ total)%Z
  | Leave => True
  end.
Proof.
  intros Hrange. unfold navigate.
  destruct (String.eqb nav "N"), (String.eqb nav "P"), (String.eqb nav "B");
    cbn [andb];
    destruct (Z.ltb_spec current_page total), (Z.ltb_spec 1 current_page);
    cbn [fst]; try done; lia.
Qed.

(** C6: [display_results] pages by five.  The number of pages is the
    ceiling of the number of rows over five; twelve rows make three pages,
    the first holding rows 1 to 5 and the third the last two; [N] on the
    last page and [P] on the first leave the page where it is, with the
    notice of an invalid choice and no exception, and whatever is typed the
    page stays between 1 and the number of pages. *)
Theorem pagination_saturates :
  (∀ results : DataFrame,
     (page_size * (total_pages results - 1) < Z.of_nat (length results)
      ≤ page_size * total_pages results)%Z) ∧
  (∀ results : DataFrame, length results = 12 →
     total_pages results = 3%Z ∧
     page_results results 1 = take 5 results ∧
     page_results results 3 = drop 10 results ∧
     length (page_results results 1) = 5 ∧
     length (page_results results 3) = 2) ∧
  (∀ total, navigate total total "N"
            = (Goto total, [Line "Invalid navigation choice."])) ∧
  (∀ total, navigate total 1 "P"
            = (Goto 1%Z, [Line "Invalid navigation choice."])) ∧
  (∀ results total line rest, upper line = "N" →
     display_loop results total total (line :: rest) =
       (show_page results total total ++ [Line "Invalid navigation choice."]
          ++ (display_loop results total total rest).1,
        (display_loop results total total rest).2)) ∧
  (∀ results total line rest, upper line = "P" →
     display_loop results total 1 (line :: rest) =
       (show_page results total 1 ++ [Line "Invalid navigation choice."]
          ++ (display_loop results total 1 rest).1,
        (display_loop results total 1 rest).2)) ∧
  (∀ total current_page nav, (1 ≤ current_page ≤ total)%Z →
     match (navigate total current_page nav).1 with
     | Goto page => (1 ≤ page ≤ total)%Z
     | Leave => True
     end).
Proof.
  assert (HN : ∀ total, navigate total total "N"
            = (Goto total, [Line "Invalid navigation choice."])).
  { intros total. unfold navigate. cbn [String.eqb Ascii.eqb andb].
    rewrite Z.ltb_irrefl. reflexivity. }
  assert (HP : ∀ total, navigate total 1 "P"
            = (Goto 1%Z, [Line "Invalid navigation choice."])).
  { intros total. reflexivity. }
  split; [apply total_pages_ceiling|].
  split.
  { intros results Hlen.
    split; [unfold total_pages; by rewrite Hlen|].
    do 13 (destruct results as [|? results]; try done). }
  split; [exact HN|]. split; [exact HP|].
  split; [|split; [|apply navigate_in_range]].
  - intros results total line rest Hline. cbn [display_loop].
    rewrite Hline, HN. by destruct (display_loop results total total rest).
  - intros results total line rest Hline. cbn [display_loop].
    rewrite Hline, HP. by destruct (display_loop results total 1 rest).
Qed.

(** Twelve rows. *)
Lemma pagination_saturates_witness :
  length twelve_rows = 12 ∧
  total_pages twelve_rows = 3%Z ∧
  page_results twelve_rows 1 = take 5 twelve_rows ∧
  page_results twelve_rows 3 = drop 10 twelve_rows ∧
  length (page_results twelve_rows 1) = 5 ∧
  length (page_results twelve_rows 3) = 2.
Proof.
  split; [reflexivity|].
  apply (proj1 (proj2 pagination_saturates) twelve_rows).
  reflexivity.
Defined.

(** * Further properties of the search *)

Section SearchEdges.

Context `{Unicode}.

Variable net : list request → request → option pyval.
Variable self : AdvancedMediaSearch.

Lemma truthy_text v : truthy v = true → (∃ g, v = PStr g ∧ g ≠ "") ∨ (∀ g, v ≠ PStr g).
Proof.
  destruct v as [| | | |g| |]; try (by right). intros Ht. left. exists g.
  split; [done|]. by intros ->.
Qed.

Lemma advanced_search_genre_not_text query media_type filters w :
  truthy (genre_filter filters) = true →
  (∀ g, genre_filter filters ≠ PStr g) →
  advanced_search net self query media_type filters w = (Raise AttributeError, w).
Proof.
  intros Ht Hg. rewrite advanced_search_unfold. cbn zeta. rewrite Ht.
  destruct (genre_filter filters) as [| | | |g| |]; try done.
  by destruct (Hg g).
Qed.

(** X2: A genre filter that is truthy and no text makes [advanced_search] raise
    [AttributeError] at [genre.lower()], before anything is sent or
    printed. *)
Theorem genre_not_text_raises (query media_type : string)
    (filters : option (gmap string pyval)) (w : world) :
  truthy (genre_filter filters) = true →
  (∀ g, genre_filter filters ≠ PStr g) →
  advanced_search net self query media_type filters w = (Raise AttributeError, w) ∧
  fetch_by_genre net self (genre_filter filters) media_type (year_filter filters) w
    = (Raise AttributeError, w).
Proof.
  intros Ht Hg. split; [by apply advanced_search_genre_not_text|].
  destruct (genre_filter filters) as [| | | |g| |]; try done.
  by destruct (Hg g).
Qed.

Lemma served_world context r w :
  ∃ evs, sent (served net context r w).2 = sent w ++ [r] ∧
         out (served net context r w).2 = out w ++ evs ∧ length evs ≤ 1.
Proof.
  unfold served, after_fetch. cbn [snd sent out].
  destruct (caught (net (sent w) r)); eexists; (split; [done|split; [done|]]);
    cbn; lia.
Qed.

(** X1: Whatever the query, the category and the filters, one call of
    [advanced_search] sends at most one request, to the search or to the
    discover path of the category, and only appends to what was sent and
    printed before. *)
Theorem advanced_search_one_request (query media_type : string)
    (filters : option (gmap string pyval)) (w : world) :
  let run := advanced_search net self query media_type filters w in
  ∃ reqs evs,
    sent run.2 = sent w ++ reqs ∧ out run.2 = out w ++ evs ∧
    length reqs ≤ 1 ∧
    (∀ r, r ∈ reqs →
       url r = tmdb_base_url self +:+ "/search/" +:+ media_type ∨
       url r = tmdb_base_url self +:+ "/discover/" +:+ media_type).
Proof.
  cbn zeta.
  destruct (truthy (genre_filter filters)) eqn:Hg.
  - destruct (truthy_text _ Hg) as [(g & Hgs & Hne)|Hnt].
    + destruct (genre_map_for self media_type !! lower g) as [genre_id|] eqn:Hid.
      * rewrite (advanced_search_genre_known net self _ _ _ _ _ _ Hgs Hne Hid).
        destruct (served_world "Error fetching by genre"
          (genre_request self genre_id media_type (year_filter filters)) w)
          as (evs & Hs & Ho & _).
        eexists [_], evs. split; [exact Hs|]. split; [exact Ho|].
        split; [done|]. intros r ->%list_elem_of_singleton. by right.
      * rewrite (advanced_search_genre_unknown net self _ _ _ _ _ Hgs Hne Hid).
        eexists [], _. cbn [snd genre_not_found sent out].
        rewrite app_nil_r. split; [done|]. split; [done|].
        split; [cbn; lia|]. by intros r ?%elem_of_nil.
    + rewrite (advanced_search_genre_not_text _ _ _ _ Hg Hnt).
      exists [], []. cbn [snd]. rewrite !app_nil_r.
      split; [done|]. split; [done|]. split; [cbn; lia|]. by intros r ?%elem_of_nil.
  - destruct (truthy (year_filter filters)) eqn:Hy.
    + rewrite (advanced_search_year_only net self _ _ _ _ Hg Hy).
      destruct (served_world "Error fetching by year"
        (year_request self (year_filter filters) media_type) w)
        as (evs & Hs & Ho & _).
      eexists [_], evs. split; [exact Hs|]. split; [exact Ho|].
      split; [done|]. intros r ->%list_elem_of_singleton. by right.
    + rewrite (advanced_search_plain net self _ _ _ _ Hg Hy).
      destruct (served_world "Error in basic search"
        (search_request self query media_type) w) as (evs & Hs & Ho & _).
      eexists [_], evs. split; [exact Hs|]. split; [exact Ho|].
      split; [done|]. intros r ->%list_elem_of_singleton. by left.
Qed.

Lemma served_unavailable context r w :
  (∀ d, net (sent w) r ≠ Some (PDict d)) →
  ∃ e, served net context r w =
         (Ok [], {| out := out w ++ [ErrorLine context e]; sent := sent w ++ [r] |}).
Proof.
  intros Hd. unfold served, after_fetch, results_of, caught.
  destruct (net (sent w) r) as [body|]; [|by eexists].
  destruct body; try (by eexists). by destruct (Hd d).
Qed.

(** X3: When the upstream is down or answers anything but a JSON object, a
    search whose genre filter is text or falsy does not raise: it returns
    the empty table, and the failure is printed on one line unless the
    genre was unknown and nothing was sent. *)
Theorem upstream_unavailable_gives_empty_table (query media_type : string)
    (filters : option (gmap string pyval)) (w : world) :
  (∀ h r d, net h r ≠ Some (PDict d)) →
  truthy (genre_filter filters) = false ∨ (∃ g, genre_filter filters = PStr g) →
  let run := advanced_search net self query media_type filters w in
  run.1 = Ok [] ∧
  ((∃ r context e,
      run.2 = {| out := out w ++ [ErrorLine context e]; sent := sent w ++ [r] |}) ∨
   (∃ g, genre_filter filters = PStr g ∧
         run.2 = genre_not_found self g media_type w)).
Proof.
  intros Hnet Hgenre. cbn zeta.
  destruct (truthy (genre_filter filters)) eqn:Hg.
  - destruct Hgenre as [|[g Hgs]]; [done|].
    assert (Hne : g ≠ "") by (intros ->; by rewrite Hgs in Hg).
    destruct (genre_map_for self media_type !! lower g) as [genre_id|] eqn:Hid.
    + rewrite (advanced_search_genre_known net self _ _ _ _ _ _ Hgs Hne Hid).
      edestruct served_unavailable as [e ->]; [apply Hnet|].
      split; [done|]. left. by eexists _, _, _.
    + rewrite (advanced_search_genre_unknown net self _ _ _ _ _ Hgs Hne Hid).
      split; [done|]. right. by exists g.
  - destruct (truthy (year_filter filters)) eqn:Hy.
    + rewrite (advanced_search_year_only net self _ _ _ _ Hg Hy).
      edestruct served_unavailable as [e ->]; [apply Hnet|].
      split; [done|]. left. by eexists _, _, _.
    + rewrite (advanced_search_plain net self _ _ _ _ Hg Hy).
      edestruct served_unavailable as [e ->]; [apply Hnet|].
      split; [done|]. left. by eexists _, _, _.
Qed.

(** The request of a search without a truthy genre filter. *)
Lemma advanced_search_no_genre query media_type filters w :
  truthy (genre_filter filters) = false →
  ∃ context r,
    advanced_search net self query media_type filters w = served net context r w ∧
    r = (if truthy (year_filter filters)
         then year_request self (year_filter filters) media_type
         else search_request self query media_type).
Proof.
  intros Hg. destruct (truthy (year_filter filters)) eqn:Hy.
  - rewrite (advanced_search_year_only net self _ _ _ _ Hg Hy). by eexists _, _.
  - rewrite (advanced_search_plain net self _ _ _ _ Hg Hy). by eexists _, _.
Qed.

(** X4: When the upstream answers a search without genre filter by a JSON
    object, nothing is printed and the table is the conversion of what is
    under ["results"]: the empty table when the key is missing, and a
    [TypeError] that escapes [advanced_search] when it holds [null], a
    number or a boolean. *)
Theorem results_key_decides (query media_type : string)
    (filters : option (gmap string pyval)) (w : world) (d : gmap string pyval) :
  truthy (genre_filter filters) = false →
  let r := if truthy (year_filter filters)
           then year_request self (year_filter filters) media_type
           else search_request self query media_type in
  let run := advanced_search net self query media_type filters w in
  net (sent w) r = Some (PDict d) →
  run = (convert_results_to_dataframe (dict_get d "results" (PList [])),
         {| out := out w; sent := sent w ++ [r] |}) ∧
  (d !! "results" = None → run.1 = Ok []) ∧
  (∀ v, d !! "results" = Some v → not_iterable v → run.1 = Raise TypeError).
Proof.
  intros Hg. cbn zeta. intros Hnet.
  destruct (advanced_search_no_genre query media_type filters w Hg)
    as (context & r & -> & ->).
  unfold served, after_fetch, results_of, caught. rewrite Hnet.
  rewrite app_nil_r. split; [done|]. cbn [fst]. unfold dict_get. split.
  - by intros ->.
  - intros v -> Hv. by destruct v.
Qed.

End SearchEdges.

Section SearchEdgesSamples.

#[local] Existing Instance sample_tables.

(** A numeric genre. *)
Lemma genre_not_text_raises_witness :
  advanced_search sample_net sample_self "Dune" "movie"
    (Some numeric_genre_filters) quiet = (Raise AttributeError, quiet).
Proof.
  apply (proj1 (genre_not_text_raises sample_net sample_self "Dune" "movie"
           (Some numeric_genre_filters) quiet
           ltac:(vm_compute; reflexivity) ltac:(vm_compute; discriminate))).
Defined.

(** An upstream that is down and one that answers a list. *)
Lemma upstream_unavailable_gives_empty_table_witness :
  (advanced_search offline_net sample_self "Dune" "movie" None quiet).1 = Ok [] ∧
  (advanced_search garbage_net sample_self "Dune" "tv" (Some year_filters) quiet).1
    = Ok [].
Proof.
  split.
  - apply (upstream_unavailable_gives_empty_table offline_net sample_self
             "Dune" "movie" None quiet).
    + intros h r d. discriminate.
    + left. vm_compute. reflexivity.
  - apply (upstream_unavailable_gives_empty_table garbage_net sample_self
             "Dune" "tv" (Some year_filters) quiet).
    + intros h r d. discriminate.
    + left. vm_compute. reflexivity.
Defined.

(** An upstream that answers [{"results": null}]. *)
Lemma results_key_decides_witness :
  (advanced_search null_results_net sample_self "Dune" "movie" None quiet).1
    = Raise TypeError.
Proof.
  apply (proj2 (proj2 (results_key_decides null_results_net sample_self
           "Dune" "movie" None quiet (<["results" := PNone]> ∅)
           ltac:(vm_compute; reflexivity) ltac:(reflexivity))) PNone).
  - vm_compute. reflexivity.
  - exact I.
Defined.

(** The sample search by genre and year. *)
Lemma advanced_search_one_request_witness :
  ∃ reqs evs,
    sent (advanced_search sample_net sample_self "Dune" "movie"
            (Some comedy_filters) quiet).2 = sent quiet ++ reqs ∧
    out (advanced_search sample_net sample_self "Dune" "movie"
           (Some comedy_filters) quiet).2 = out quiet ++ evs ∧
    length reqs ≤ 1 ∧
    (∀ r, r ∈ reqs →
       url r = tmdb_base_url sample_self +:+ "/search/" +:+ "movie" ∨
       url r = tmdb_base_url sample_self +:+ "/discover/" +:+ "movie").
Proof.
  apply (advanced_search_one_request sample_net sample_self "Dune" "movie"
           (Some comedy_filters) quiet).
Defined.

End SearchEdgesSamples.

(** * Further properties of the genre catalogue *)

Section CatalogueRecords.

Context `{Unicode}.

Lemma genre_entry_record g r :
  is_genre_record g r → genre_entry g = Ok (lower r.1, r.2).
Proof.
  intros (d & -> & Hname & Hid). unfold genre_entry, py_getitem.
  rewrite Hname. cbn [mbind result_bind rbind py_lower]. by rewrite Hid.
Qed.

Lemma genre_dict_records gs : ∀ recs acc,
  Forall2 is_genre_record gs recs →
  genre_dict acc gs = Ok (foldl (λ m r, <[lower r.1 := r.2]> m) acc recs).
Proof.
  induction gs as [|g gs IH]; intros recs acc Hall.
  - by apply Forall2_nil_inv_l in Hall as ->.
  - apply Forall2_cons_inv_l in Hall as (r & recs' & Hr & Hall & ->).
    cbn [genre_dict foldl]. rewrite (genre_entry_record g r Hr).
    cbn [mbind result_bind rbind fst snd]. by apply IH.
Qed.

Lemma catalogue_fold_other recs : ∀ (acc : gmap string pyval) k,
  (∀ r, r ∈ recs → lower r.1 ≠ k) →
  foldl (λ m r, <[lower r.1 := r.2]> m) acc recs !! k = acc !! k.
Proof.
  induction recs as [|r recs IH]; intros acc k Hk; [done|].
  cbn [foldl]. rewrite IH.
  - apply lookup_insert_ne, Hk. by left.
  - intros r' Hr'. apply Hk. by right.
Qed.

Lemma catalogue_fold_keys recs : ∀ (acc : gmap string pyval) k,
  is_Some (foldl (λ m r, <[lower r.1 := r.2]> m) acc recs !! k) ↔
  is_Some (acc !! k) ∨ ∃ r, r ∈ recs ∧ k = lower r.1.
Proof.
  induction recs as [|r recs IH]; intros acc k.
  - cbn [foldl]. split; [by left|]. intros [?|(r & Hr & _)]; [done|].
    by apply elem_of_nil in Hr.
  - cbn [foldl]. rewrite IH. split.
    + intros [Hk|(r' & Hr' & ->)].
      * destruct (decide (lower r.1 = k)) as [<-|Hne].
        -- right. exists r. split; [by left|done].
        -- rewrite lookup_insert_ne in Hk by done. by left.
      * right. exists r'. split; [by right|done].
    + intros [Hk|(r' & Hr' & ->)].
      * left. destruct (decide (lower r.1 = k)) as [<-|Hne].
        -- rewrite lookup_insert_eq. by eexists.
        -- by rewrite lookup_insert_ne.
      * apply elem_of_cons in Hr' as [->|Hr'].
        -- left. rewrite lookup_insert_eq. by eexists.
        -- right. by exists r'.
Qed.

Lemma catalogue_from_last before n i after :
  (∀ r, r ∈ after → lower r.1 ≠ lower n) →
  catalogue_from (before ++ (n, i) :: after) !! lower n = Some i.
Proof.
  intros Hafter. unfold catalogue_from. rewrite foldl_app. cbn [foldl].
  rewrite catalogue_fold_other by done. cbn [fst snd]. apply lookup_insert_eq.
Qed.

(** X5: The catalogue built from a genre list whose records all carry a text
    name and an identifier: it is keyed by exactly the lower-case forms of
    the listed names, and a name resolves to the identifier of its last
    record (of two records whose names have the same lower-case form, the
    later one wins). *)
Theorem catalogue_of_records (d : gmap string pyval) (gs : list pyval)
    (recs : list (string * pyval)) :
  d !! "genres" = Some (PList gs) →
  Forall2 is_genre_record gs recs →
  parse_genres (PDict d) = Ok (catalogue_from recs) ∧
  (∀ k, is_Some (catalogue_from recs !! k) ↔ ∃ r, r ∈ recs ∧ k = lower r.1) ∧
  (∀ before n i after,
     recs = before ++ (n, i) :: after →
     (∀ r, r ∈ after → lower r.1 ≠ lower n) →
     catalogue_from recs !! lower n = Some i).
Proof.
  intros Hd Hall. split; [|split].
  - unfold parse_genres, py_get, dict_get. rewrite Hd.
    cbn [default mbind result_bind rbind py_iter].
    by apply genre_dict_records.
  - intros k. unfold catalogue_from. rewrite catalogue_fold_keys.
    rewrite lookup_empty. split; [|by right].
    intros [[? ?]|?]; done.
  - intros before n i after -> Hafter. by apply catalogue_from_last.
Qed.

Lemma parse_genres_list (d : gmap string pyval) gs :
  d !! "genres" = Some (PList gs) → parse_genres (PDict d) = genre_dict ∅ gs.
Proof. intros Hd. unfold parse_genres, py_get, dict_get. by rewrite Hd. Qed.

Lemma genre_dict_bad gs : ∀ acc g,
  g ∈ gs → is_ok (genre_entry g) = false → ∃ e, genre_dict acc gs = Raise e.
Proof.
  induction gs as [|g' gs IH]; intros acc g Hin Hbad.
  - by apply elem_of_nil in Hin.
  - cbn [genre_dict]. destruct (genre_entry g') as [kv|e] eqn:Hg'.
    + cbn [mbind result_bind rbind].
      apply elem_of_cons in Hin as [->|Hin].
      * by rewrite Hg' in Hbad.
      * by eapply IH.
    + by exists e.
Qed.

End CatalogueRecords.

Section CatalogueEdges.

Context `{Unicode}.

Variable net : list request → request → option pyval.

(** X6: One record of the genre list that is no dictionary, or lacks a text
    [name] or an [id], empties the whole catalogue of the category, however
    many good records the list holds; the failure is printed and not
    raised. *)
Theorem one_bad_record_empties_catalogue (base_url : string) (api_key : pyval)
    (media_type : string) (w : world) (d : gmap string pyval)
    (gs : list pyval) (g : pyval) :
  net (sent w) (genre_list_request base_url api_key media_type) = Some (PDict d) →
  d !! "genres" = Some (PList gs) →
  g ∈ gs → is_ok (genre_entry g) = false →
  ∃ e, _get_genre_mappings net base_url api_key media_type w =
         (Ok ∅,
          {| out := out w ++
               [ErrorLine ("Error fetching " +:+ media_type +:+ " genres") e];
             sent := sent w ++ [genre_list_request base_url api_key media_type] |}).
Proof.
  intros Hnet Hd Hin Hbad. rewrite _get_genre_mappings_run. cbn zeta.
  rewrite Hnet. unfold catalogue_of, catalogue_error.
  rewrite (parse_genres_list d gs Hd).
  destruct (genre_dict_bad gs ∅ g Hin Hbad) as [e ->]. by exists e.
Qed.

Lemma init_run env w :
  init net env w =
    let base := "https://api.themoviedb.org/3" in
    let key := getenv env "TMDB_API_KEY" in
    let rm := genre_list_request base key "movie" in
    let rt := genre_list_request base key "tv" in
    let am := net (sent w) rm in
    let at_ := net (sent w ++ [rm]) rt in
    (Ok {| tmdb_api_key := key;
           watchmode_api_key := getenv env "WATCHMODE_API_KEY";
           tmdb_base_url := base;
           movie_genres := catalogue_of am;
           tv_genres := catalogue_of at_;
           platform_mapping := _load_platform_mapping |},
     {| out := (out w ++
                match catalogue_error am with
                | Some e => [ErrorLine "Error fetching movie genres" e]
                | None => []
                end) ++
               match catalogue_error at_ with
               | Some e => [ErrorLine "Error fetching tv genres" e]
               | None => []
               end;
        sent := (sent w ++ [rm]) ++ [rt] |}).
Proof.
  unfold init, mbind, M_bind, bind.
  rewrite _get_genre_mappings_run. cbn beta iota zeta.
  rewrite _get_genre_mappings_run. cbn beta iota zeta. reflexivity.
Qed.

(** X7: The constructor sends exactly two requests, the genre list of movies
    and then that of tv, each with the API key of the environment as its
    only parameter, whether or not the first one fails; it prints at most
    one line per list, and the object keeps the key and the fixed base
    address. *)
Theorem init_sends_two_requests (env : gmap string string) (w : world) :
  ∃ self w' evs,
    init net env w = (Ok self, w') ∧
    sent w' = sent w ++
      [ {| url := "https://api.themoviedb.org/3/genre/movie/list";
           params := {[ "api_key" := getenv env "TMDB_API_KEY" ]} |};
        {| url := "https://api.themoviedb.org/3/genre/tv/list";
           params := {[ "api_key" := getenv env "TMDB_API_KEY" ]} |} ] ∧
    out w' = out w ++ evs ∧ length evs ≤ 2 ∧
    tmdb_api_key self = getenv env "TMDB_API_KEY" ∧
    tmdb_base_url self = "https://api.themoviedb.org/3".
Proof.
  rewrite init_run. cbn zeta. eexists _, _, _. split; [reflexivity|].
  cbn [sent out tmdb_api_key tmdb_base_url].
  split; [by rewrite <- app_assoc|]. split; [by rewrite <- app_assoc|].
  split; [|done].
  rewrite length_app.
  destruct (catalogue_error _), (catalogue_error _); cbn; lia.
Qed.

(** X8: From the upstream's list to the request: a genre that the movie list
    names is found by [fetch_by_genre] under every spelling that has the
    lower-case form of the listed name, and the discover request carries
    the identifier of the last record with that lower-case form. *)
Theorem listed_genre_is_found (env : gmap string string) (w w1 : world)
    (d : gmap string pyval) (gs : list pyval)
    (before after : list (string * pyval)) (n g : string) (i year : pyval) :
  net (sent w) (genre_list_request "https://api.themoviedb.org/3"
                  (getenv env "TMDB_API_KEY") "movie") = Some (PDict d) →
  d !! "genres" = Some (PList gs) →
  Forall2 is_genre_record gs (before ++ (n, i) :: after) →
  (∀ r, r ∈ after → lower r.1 ≠ lower n) →
  lower g = lower n →
  ∃ self w' r,
    init net env w = (Ok self, w') ∧
    sent (fetch_by_genre net self (PStr g) "movie" year w1).2 = sent w1 ++ [r] ∧
    url r = "https://api.themoviedb.org/3/discover/movie" ∧
    params r !! "with_genres" = Some i.
Proof.
  intros Hnet Hd Hall Hafter Hg. rewrite init_run. cbn zeta.
  eexists _, _, _. split; [reflexivity|].
  rewrite Hnet.
  erewrite (fetch_by_genre_known net _ g "movie" year i).
  - split; [reflexivity|]. split; [reflexivity|].
    by destruct (genre_request_params
      {| tmdb_api_key := getenv env "TMDB_API_KEY";
         watchmode_api_key := getenv env "WATCHMODE_API_KEY";
         tmdb_base_url := "https://api.themoviedb.org/3";
         movie_genres := catalogue_of (Some (PDict d));
         tv_genres := catalogue_of
           (net (sent w ++ [genre_list_request "https://api.themoviedb.org/3"
                              (getenv env "TMDB_API_KEY") "movie"])
                (genre_list_request "https://api.themoviedb.org/3"
                              (getenv env "TMDB_API_KEY") "tv"));
         platform_mapping := _load_platform_mapping |} i "movie" year)
      as (_ & ? & _).
  - unfold genre_map_for. cbn [String.eqb Ascii.eqb movie_genres].
    unfold catalogue_of. rewrite (parse_genres_list d gs Hd).
    rewrite (genre_dict_records gs _ ∅ Hall), Hg.
    by apply catalogue_from_last.
Qed.

End CatalogueEdges.

Section CatalogueEdgesSamples.

#[local] Existing Instance sample_tables.

(** The sample list of two genres, and a list in French. *)
Lemma catalogue_of_records_witness :
  (parse_genres (PDict (genre_body sample_genres))
     = Ok (catalogue_from sample_genre_names) ∧
   catalogue_from sample_genre_names !! lower "Science Fiction" = Some (PInt 878)) ∧
  (parse_genres (PDict (genre_body french_genres))
     = Ok (catalogue_from french_genre_names) ∧
   catalogue_from french_genre_names !! "émissions" = Some (PInt 10764)).
Proof.
  split.
  - assert (Hd : genre_body sample_genres !! "genres" = Some (PList sample_genres))
      by (vm_compute; reflexivity).
    assert (Hall : Forall2 is_genre_record sample_genres sample_genre_names).
    { repeat constructor; eexists; (split; [reflexivity|split; vm_compute; reflexivity]). }
    destruct (catalogue_of_records (genre_body sample_genres) sample_genres
                sample_genre_names Hd Hall) as (Hparse & _ & Hlast).
    split; [exact Hparse|].
    apply (Hlast [("Action", PInt 28)] "Science Fiction" (PInt 878) []);
      [reflexivity|]. intros r Hr. by apply elem_of_nil in Hr.
  - assert (Hd : genre_body french_genres !! "genres" = Some (PList french_genres))
      by (vm_compute; reflexivity).
    assert (Hall : Forall2 is_genre_record french_genres french_genre_names).
    { repeat constructor; eexists; (split; [reflexivity|split; vm_compute; reflexivity]). }
    destruct (catalogue_of_records (genre_body french_genres) french_genres
                french_genre_names Hd Hall) as (Hparse & _ & Hlast).
    split; [exact Hparse|].
    apply (Hlast [("Comédie", PInt 35)] "ÉMISSIONS" (PInt 10764) []);
      [reflexivity|]. intros r Hr. by apply elem_of_nil in Hr.
Defined.

(** A list whose second record has no name. *)
Lemma one_bad_record_empties_catalogue_witness :
  ∃ e, _get_genre_mappings (genres_net nameless_genres)
         "https://api.themoviedb.org/3" PNone "movie" quiet =
       (Ok ∅,
        {| out := [ErrorLine "Error fetching movie genres" e];
           sent := [genre_list_request "https://api.themoviedb.org/3" PNone "movie"] |}).
Proof.
  apply (one_bad_record_empties_catalogue (genres_net nameless_genres)
           "https://api.themoviedb.org/3" PNone "movie" quiet
           (genre_body nameless_genres) nameless_genres
           (PDict (<["id" := PInt 12]> ∅))).
  - reflexivity.
  - vm_compute. reflexivity.
  - right. left.
  - vm_compute. reflexivity.
Defined.

(** ["SCIENCE fiction"] against the sample list. *)
Lemma listed_genre_is_found_witness :
  ∃ self w' r,
    init (genres_net sample_genres) ∅ quiet = (Ok self, w') ∧
    sent (fetch_by_genre (genres_net sample_genres) self (PStr "SCIENCE fiction")
            "movie" PNone quiet).2 = sent quiet ++ [r] ∧
    url r = "https://api.themoviedb.org/3/discover/movie" ∧
    params r !! "with_genres" = Some (PInt 878).
Proof.
  apply (listed_genre_is_found (genres_net sample_genres) ∅ quiet quiet
           (genre_body sample_genres) sample_genres
           [("Action", PInt 28)] [] "Science Fiction" "SCIENCE fiction"
           (PInt 878) PNone).
  - reflexivity.
  - vm_compute. reflexivity.
  - repeat constructor; eexists; (split; [reflexivity|split; vm_compute; reflexivity]).
  - intros r Hr. by apply elem_of_nil in Hr.
  - reflexivity.
Defined.

End CatalogueEdgesSamples.

(** * Further properties of the conversion *)

Section ConversionEdges.

Context `{Unicode}.

Lemma convert_items_app a b :
  convert_items (a ++ b) =
    (ra ← convert_items a; rb ← convert_items b; Ok (ra ++ rb)).
Proof.
  induction a as [|item a IH]; cbn [app convert_items].
  - by destruct (convert_items b).
  - destruct (convert_item item); [|done]. cbn [mbind result_bind rbind].
    rewrite IH. destruct (convert_items a); [|done]. cbn [mbind result_bind rbind].
    by destruct (convert_items b).
Qed.

Lemma convert_results_entries items table :
  convert_results_to_dataframe (PList items) = Ok table →
  convert_items items = Ok (entry <$> table).
Proof.
  rewrite convert_results_list. destruct (convert_items items) as [data|]; [|done].
  cbn [mbind result_bind rbind]. intros [= <-]. by rewrite pd_DataFrame_entries.
Qed.

(** X9: The conversion goes item by item, from the first.  When a list and
    a second list convert, so does their concatenation, and the rows of its
    frame are made from the dictionaries of the first frame followed by
    those of the second, each row standing among all of them (so that the
    frame itself need not be the two frames laid end to end: pandas stores
    the cells by the longer columns).  The first item that fails decides
    the error, whatever comes after it. *)
Theorem convert_is_sequential (a : list pyval) (ta : DataFrame) :
  convert_results_to_dataframe (PList a) = Ok ta →
  (∀ b tb, convert_results_to_dataframe (PList b) = Ok tb →
     ∃ tab, convert_results_to_dataframe (PList (a ++ b)) = Ok tab ∧
            length tab = length ta + length tb ∧
            entry <$> tab = (entry <$> ta) ++ (entry <$> tb) ∧
            Forall (λ r, search_data r = (entry <$> ta) ++ (entry <$> tb)) tab) ∧
  (∀ item rest e, convert_item item = Raise e →
     convert_results_to_dataframe (PList (a ++ item :: rest)) = Raise e).
Proof.
  intros Ha%convert_results_entries. split.
  - intros b tb Hb%convert_results_entries.
    exists (pd_DataFrame ((entry <$> ta) ++ (entry <$> tb))).
    rewrite convert_results_list, convert_items_app, Ha, Hb.
    split; [done|]. rewrite pd_DataFrame_length, pd_DataFrame_entries.
    split; [by rewrite length_app, !length_fmap|]. split; [done|].
    apply pd_DataFrame_search_data.
  - intros item rest e He.
    rewrite convert_results_list, convert_items_app, Ha.
    cbn [mbind result_bind rbind convert_items]. by rewrite He.
Qed.

(** X10: Results that are no list: text and dictionaries are iterated, so the
    empty ones give the empty table and the others fail with
    [AttributeError] on their first element, which has no [get]. *)
Theorem convert_of_text_or_dict :
  convert_results_to_dataframe (PStr "") = Ok [] ∧
  (∀ s, s ≠ "" → convert_results_to_dataframe (PStr s) = Raise AttributeError) ∧
  convert_results_to_dataframe (PDict ∅) = Ok [] ∧
  (∀ d : gmap string pyval, d ≠ ∅ →
     convert_results_to_dataframe (PDict d) = Raise AttributeError).
Proof.
  split; [done|]. split; [by intros [|c s]|]. split; [done|].
  intros d Hd. unfold convert_results_to_dataframe.
  cbn [py_iter mbind result_bind rbind].
  destruct (map_to_list d) as [|[k v] l] eqn:Hl; [|done].
  by apply map_to_list_empty_iff in Hl.
Qed.

Lemma convert_item_fields_untouched (d : gmap string pyval) v y :
  row_of (<["first_air_date" := v]> d) y = row_of d y.
Proof.
  unfold row_of, title_of, overview_of, popularity_of.
  by rewrite !lookup_insert_ne by done.
Qed.

(** X11: [first_air_date] is read only when [release_date] is falsy: under a
    truthy [release_date], setting [first_air_date] to whatever value
    changes neither the row nor the error of the item. *)
Theorem release_date_takes_precedence (d : gmap string pyval) (v : pyval) :
  truthy (dict_get d "release_date" PNone) = true →
  convert_item (PDict (<["first_air_date" := v]> d)) = convert_item (PDict d).
Proof.
  intros Hrd. rewrite !convert_item_dict.
  assert (Hdate : date_field (<["first_air_date" := v]> d) = date_field d).
  { unfold date_field, py_or, dict_get. unfold dict_get in Hrd.
    assert (Hl : <["first_air_date" := v]> d !! "release_date" = d !! "release_date")
      by (by apply lookup_insert_ne).
    by rewrite Hl, Hrd. }
  rewrite Hdate.
  destruct (date_field d) as [| | | |s| |]; try (by rewrite convert_item_fields_untouched).
  destruct (truthy (PStr s)); [|by rewrite convert_item_fields_untouched].
  destruct (int_of_str (leading_segment s)); [|done].
  by rewrite convert_item_fields_untouched.
Qed.

Lemma digit_char_is_nat n : n < 10 → Ascii.is_nat (digit_char n) = Some n.
Proof. intros Hn. do 10 (destruct n as [|n]; [done|]). lia. Qed.

Lemma digit_char_not_space n : n < 10 → not_space (digit_char n) = true.
Proof. intros Hn. do 10 (destruct n as [|n]; [done|]). lia. Qed.

Lemma digit_char_not_dash n : n < 10 → Ascii.eqb (digit_char n) "-" = false.
Proof. intros Hn. do 10 (destruct n as [|n]; [done|]). lia. Qed.

Lemma digit_char_not_sign n :
  n < 10 → digit_char n ≠ "-"%char ∧ digit_char n ≠ "+"%char.
Proof. intros Hn. do 10 (destruct n as [|n]; [done|]). lia. Qed.

Lemma int_digits_text ds : ∀ acc n,
  Forall (λ d, d < 10) ds → ds ≠ [] →
  int_digits (digits_text ds) acc n false
    = Some (decimal_from acc ds, n + length ds).
Proof.
  assert (Hgen : ∀ ds acc n, Forall (λ d, d < 10) ds →
    int_digits (digits_text ds) acc n true
      = Some (decimal_from acc ds, n + length ds)).
  { clear ds. induction ds as [|d ds IH]; intros acc n Hall.
    - cbn. f_equal. f_equal. lia.
    - apply Forall_cons in Hall as [Hd Hall]. cbn [digits_text int_digits].
      rewrite (digit_char_is_nat d Hd), IH by done.
      cbn [length decimal_from foldl]. f_equal. f_equal. lia. }
  intros acc n Hall Hne. destruct ds as [|d ds]; [done|].
  apply Forall_cons in Hall as [Hd Hall]. cbn [digits_text int_digits].
  rewrite (digit_char_is_nat d Hd), Hgen by done.
  cbn [length decimal_from foldl]. f_equal. f_equal. lia.
Qed.

Lemma rev_app_rev_app s1 : ∀ s2 s3,
  String.rev_app (String.rev_app s1 s2) s3 = String.rev_app s2 (s1 +:+ s3).
Proof.
  induction s1 as [|a s1 IH]; intros s2 s3; [done|].
  cbn [String.rev_app]. by rewrite IH.
Qed.

Lemma string_app_nil_r s : s +:+ "" = s.
Proof.
  induction s as [|a s IH]; [done|].
  change (String a s +:+ "") with (String a (s +:+ "")). by rewrite IH.
Qed.

Lemma rev_involutive s : String.rev (String.rev s) = s.
Proof.
  unfold String.rev. rewrite rev_app_rev_app. cbn [String.rev_app].
  apply string_app_nil_r.
Qed.

Lemma all_chars_rev_app p s1 : ∀ s2,
  all_chars p (String.rev_app s1 s2) = all_chars p s1 && all_chars p s2.
Proof.
  induction s1 as [|a s1 IH]; intros s2; [done|].
  cbn [String.rev_app all_chars]. rewrite IH. cbn [all_chars].
  by destruct (p a), (all_chars p s1), (all_chars p s2).
Qed.

Lemma lstrip_no_space s : all_chars not_space s = true → lstrip s = s.
Proof.
  destruct s as [|c s]; [done|]. cbn [all_chars lstrip]. unfold not_space.
  by destruct (Ascii.is_space c).
Qed.

Lemma strip_no_space s : all_chars not_space s = true → strip s = s.
Proof.
  intros Hs. unfold strip. rewrite (lstrip_no_space s Hs).
  rewrite lstrip_no_space, rev_involutive; [done|].
  unfold String.rev. rewrite all_chars_rev_app, Hs. done.
Qed.

Lemma digits_text_no_space ds :
  Forall (λ d, d < 10) ds → all_chars not_space (digits_text ds) = true.
Proof.
  induction 1 as [|d ds Hd _ IH]; [done|].
  cbn [digits_text all_chars]. by rewrite digit_char_not_space, IH.
Qed.

Lemma digits_text_ascii ds :
  Forall (λ d, d < 10) ds → is_ascii (digits_text ds) = true.
Proof.
  induction 1 as [|d ds Hd _ IH]; [done|].
  unfold is_ascii in *. cbn [digits_text all_chars]. rewrite IH, andb_true_r.
  do 10 (destruct d as [|d]; [done|]). lia.
Qed.

(** [int] on a text of digits reads the number the digits denote. *)
Lemma int_of_digits ds :
  Forall (λ d, d < 10) ds → ds ≠ [] → length ds ≤ max_str_digits →
  int_of_str (digits_text ds) = Some (decimal ds).
Proof.
  intros Hall Hne Hlen. unfold int_of_str.
  rewrite digits_text_ascii by done. unfold int_of_ascii.
  rewrite strip_no_space by (by apply digits_text_no_space).
  destruct ds as [|d ds]; [done|]. cbn [digits_text].
  pose proof Hall as Hall'. apply Forall_cons in Hall' as [Hd _].
  destruct (digit_char_not_sign d Hd) as [Hminus Hplus].
  assert (Hbody :
    (let '(negative, body) :=
       match String (digit_char d) (digits_text ds) with
       | String "-" b => (true, b)
       | String "+" b => (false, b)
       | _ => (false, String (digit_char d) (digits_text ds))
       end in
     match int_digits body 0 0 false with
     | Some (v, n) =>
         if n <=? max_str_digits then Some (if negative then (- v)%Z else v)
         else None
     | None => None
     end) =
    match int_digits (digits_text (d :: ds)) 0 0 false with
    | Some (v, n) => if n <=? max_str_digits then Some v else None
    | None => None
    end).
  { cbn [digits_text]. revert Hminus Hplus.
    generalize (digit_char d). intros c Hminus Hplus.
    destruct c as [[] [] [] [] [] [] [] []]; try done. }
  rewrite Hbody, int_digits_text by done.
  cbn [Nat.add]. apply Nat.leb_le in Hlen. by rewrite Hlen.
Qed.

Lemma split_digits_head ds tail :
  Forall (λ d, d < 10) ds →
  tail = "" ∨ (∃ rest, tail = String "-" rest) →
  head (split "-" (digits_text ds +:+ tail)) = Some (digits_text ds).
Proof.
  intros Hall Htail. induction Hall as [|d ds Hd _ IH].
  - destruct Htail as [->|[rest ->]]; done.
  - cbn [digits_text]. change (String ?c ?s +:+ ?t) with (String c (s +:+ t)).
    cbn [split]. rewrite (digit_char_not_dash d Hd).
    destruct (split "-" (digits_text ds +:+ tail)) as [|w ws]; [done|].
    cbn [head] in *. by injection IH as ->.
Qed.

(** X12: An item dated as the upstream dates them gets its year: when the date
    the item is read by ([release_date] if truthy, else [first_air_date]) is
    one to 4300 decimal digits, alone or followed by ['-'] and anything,
    the row of the item carries the number those digits denote. *)
Theorem dated_item_gets_its_year (d : gmap string pyval) (ds : list nat)
    (tail : string) :
  Forall (λ n, n < 10) ds → ds ≠ [] → length ds ≤ 4300 →
  tail = "" ∨ (∃ rest, tail = String "-" rest) →
  date_field d = PStr (digits_text ds +:+ tail) →
  convert_item (PDict d) = Ok (row_of d (Some (decimal ds))).
Proof.
  intros Hall Hne Hlen Htail Hdate. rewrite convert_item_dict, Hdate.
  assert (Htruthy : truthy (PStr (digits_text ds +:+ tail)) = true)
    by (by destruct ds).
  rewrite Htruthy. unfold leading_segment.
  rewrite (split_digits_head ds tail Hall Htail). cbn [from_option id].
  by rewrite int_of_digits.
Qed.

End ConversionEdges.

Section ConversionEdgesSamples.

#[local] Existing Instance sample_tables.

(** The list of a film and a series, followed by a list of one film. *)
Lemma convert_is_sequential_witness :
  (∃ tab, convert_results_to_dataframe
            (PList ([movie_item; PDict tv_item] ++ [movie_item])) = Ok tab ∧
          length tab = 2 + 1 ∧
          entry <$> tab =
            [dune_row; {| title := PStr "Stranger Things"; release_year := Some 2016%Z;
                          overview := PStr "No overview"; popularity := PInt 0 |}]
            ++ [dune_row]) ∧
  convert_results_to_dataframe
    (PList ([movie_item; PDict tv_item] ++ unaired_item :: [movie_item]))
    = Raise ValueError.
Proof.
  pose proof (convert_is_sequential [movie_item; PDict tv_item] _
                ltac:(vm_compute; reflexivity)) as [Happ Hfail].
  split.
  - destruct (Happ [movie_item] _ ltac:(vm_compute; reflexivity))
      as (tab & Htab & Hlen & Hentries & _).
    exists tab. split; [exact Htab|]. split; [exact Hlen|exact Hentries].
  - apply Hfail. vm_compute. reflexivity.
Defined.

(** A film that also carries an unreadable [first_air_date]. *)
Lemma release_date_takes_precedence_witness :
  convert_item (PDict (<["first_air_date" := PStr "soon"]> dated_2021))
    = convert_item (PDict dated_2021).
Proof.
  apply (release_date_takes_precedence dated_2021 (PStr "soon")).
  vm_compute. reflexivity.
Defined.

(** The date ["2021-09-15"]. *)
Lemma dated_item_gets_its_year_witness :
  convert_item (PDict dated_2021) = Ok (row_of dated_2021 (Some 2021%Z)).
Proof.
  apply (dated_item_gets_its_year dated_2021 [2; 0; 2; 1] "-09-15").
  - repeat constructor.
  - discriminate.
  - cbn. lia.
  - right. by eexists.
  - vm_compute. reflexivity.
Defined.


(** The text ["ab"] and a dictionary of one key as results. *)
Lemma convert_of_text_or_dict_witness :
  convert_results_to_dataframe (PStr "ab") = Raise AttributeError ∧
  convert_results_to_dataframe (PDict (<["page" := PInt 1]> ∅)) = Raise AttributeError.
Proof.
  destruct convert_of_text_or_dict as (_ & Htext & _ & Hdict).
  split.
  - apply Htext. discriminate.
  - apply Hdict. intros Hempty.
    apply (f_equal (λ m : gmap string pyval, m !! "page")) in Hempty.
    vm_compute in Hempty. discriminate.
Defined.

End ConversionEdgesSamples.

(** * Further properties of the pagination *)

Lemma page_results_take_drop (results : DataFrame) (p : Z) :
  (1 ≤ p)%Z →
  page_results results p = take 5 (drop (5 * (Z.to_nat p - 1)) results).
Proof.
  intros Hp. unfold page_results, py_slice, slice_bound, page_size.
  set (len := length results).
  destruct (Z.ltb_spec ((p - 1) * 5) 0); [lia|].
  destruct (Z.ltb_spec ((p - 1) * 5 + 5) 0); [lia|].
  destruct (decide (5 * (Z.to_nat p - 1) ≤ len)) as [Hle|Hgt].
  - replace (Z.to_nat (Z.min ((p - 1) * 5) (Z.of_nat len)))
      with (5 * (Z.to_nat p - 1)) by lia.
    destruct (decide (5 * (Z.to_nat p - 1) + 5 ≤ len)) as [Hfull|Hpart].
    + f_equal. lia.
    + rewrite !take_ge; [done|rewrite length_drop; lia|rewrite length_drop; lia].
  - replace (Z.to_nat (Z.min ((p - 1) * 5) (Z.of_nat len))) with len by lia.
    rewrite !drop_ge by lia. by rewrite !take_nil.
Qed.

Lemma chunks_concat {A} (l : list A) (n : nat) :
  concat ((λ k, take 5 (drop (5 * k) l)) <$> seq 0 n) = take (5 * n) l.
Proof.
  induction n as [|n IH]; [by rewrite Nat.mul_0_r, take_0|].
  rewrite seq_S, fmap_app, concat_app, IH. cbn [fmap list_fmap concat Nat.add].
  rewrite app_nil_r, take_take_drop. f_equal. lia.
Qed.

(** X13: The pages partition the table: laid end to end, pages 1 to
    [total_pages] give back the rows in their order; every page before the
    last holds exactly five rows, the last between one and five, and a page
    beyond the last is empty. *)
Theorem pages_partition (results : DataFrame) :
  concat ((λ p, page_results results (Z.of_nat p))
            <$> seq 1 (Z.to_nat (total_pages results))) = results ∧
  (∀ p, (1 ≤ p < total_pages results)%Z →
        length (page_results results p) = 5) ∧
  (results ≠ [] →
     1 ≤ length (page_results results (total_pages results)) ≤ 5) ∧
  (∀ p, (total_pages results < p)%Z → page_results results p = []).
Proof.
  pose proof (total_pages_ceiling results) as Hceil. unfold page_size in Hceil.
  split; [|split; [|split]].
  - rewrite <- fmap_S_seq, <- list_fmap_compose.
    rewrite (list_fmap_ext _ (λ k, take 5 (drop (5 * k) results)) (seq 0 _)).
    + rewrite chunks_concat. apply take_ge. lia.
    + intros i k _. cbn [compose]. rewrite page_results_take_drop by lia.
      do 2 f_equal. lia.
  - intros p Hp. rewrite page_results_take_drop by lia.
    rewrite length_take, length_drop. lia.
  - intros Hne. assert (0 < length results) by (destruct results; [done|cbn; lia]).
    rewrite page_results_take_drop by lia.
    rewrite length_take, length_drop. lia.
  - intros p Hp.
    assert (0 ≤ total_pages results)%Z by lia.
    rewrite page_results_take_drop by lia.
    rewrite drop_ge by lia. apply take_nil.
Qed.

Lemma navigate_leave_iff total current_page nav :
  (navigate total current_page nav).1 = Leave ↔ nav = "B".
Proof.
  unfold navigate. split.
  - destruct (String.eqb nav "N" && _); [done|].
    destruct (String.eqb nav "P" && _); [done|].
    destruct (String.eqb_spec nav "B"); done.
  - intros ->. cbn [String.eqb Ascii.eqb andb]. done.
Qed.

Lemma display_loop_step results total current_page line rest :
  display_loop results total current_page (line :: rest) =
    match navigate total current_page (upper line) with
    | (Leave, evs) => (show_page results total current_page ++ evs, None)
    | (Goto page, evs) =>
        (show_page results total current_page ++ evs
           ++ (display_loop results total page rest).1,
         (display_loop results total page rest).2)
    end.
Proof.
  cbn [display_loop].
  destruct (navigate total current_page (upper line)) as [[page|] evs]; [|done].
  by destruct (display_loop results total page rest).
Qed.

(** X14: The loop of [display_results] ends exactly when a line that reads [B]
    in upper case is typed; what is typed after that line is not read by
    the loop; and while it waits, the page it shows lies between 1 and the
    number of pages. *)
Theorem display_loop_leaves_on_B (results : DataFrame) (total : Z) :
  (∀ current_page inputs,
     (display_loop results total current_page inputs).2 = None ↔
     ∃ line, line ∈ inputs ∧ upper line = "B") ∧
  (∀ before current_page line after, upper line = "B" →
     display_loop results total current_page (before ++ line :: after) =
     display_loop results total current_page (before ++ [line])) ∧
  (∀ inputs current_page page, (1 ≤ current_page ≤ total)%Z →
     (display_loop results total current_page inputs).2 = Some page →
     (1 ≤ page ≤ total)%Z).
Proof.
  split; [|split].
  - intros current_page inputs. revert current_page.
    induction inputs as [|line rest IH]; intros current_page.
    + cbn. split; [done|]. intros (line & Hin & _). by apply elem_of_nil in Hin.
    + rewrite display_loop_step.
      pose proof (navigate_leave_iff total current_page (upper line)) as Hleave.
      destruct (navigate total current_page (upper line)) as [[page|] evs];
        cbn [fst snd] in *.
      * rewrite IH. split.
        -- intros (l & Hin & Hl). exists l. split; [by right|done].
        -- intros (l & Hin & Hl). apply elem_of_cons in Hin as [->|Hin].
           ++ by apply Hleave in Hl.
           ++ by exists l.
      * split; [|done]. intros _. exists line. split; [by left|].
        by apply Hleave.
  - intros before. induction before as [|x before IH];
      intros current_page line after Hline; cbn [app].
    + rewrite !display_loop_step.
      pose proof (navigate_leave_iff total current_page (upper line)) as Hleave.
      destruct (navigate total current_page (upper line)) as [[page|] evs];
        cbn [fst] in Hleave; [|done].
      by apply Hleave in Hline.
    + rewrite !display_loop_step.
      destruct (navigate total current_page (upper x)) as [[page|] evs]; [|done].
      by rewrite (IH page line after Hline).
  - intros inputs. induction inputs as [|line rest IH];
      intros current_page page Hrange.
    + cbn. by intros [= <-].
    + rewrite display_loop_step.
      pose proof (navigate_in_range total current_page (upper line) Hrange) as Hnav.
      destruct (navigate total current_page (upper line)) as [[page'|] evs];
        cbn [fst snd] in *; [|done].
      by apply IH.
Qed.

(** X15: Pressing [n] again and again walks forward and stops at the last page:
    after [k] presses from a page in range, the loop waits on page
    [min (current_page + k) total]; pressing [p] walks back and stops at
    page 1. *)
Theorem repeated_navigation_saturates (results : DataFrame) (total : Z) (k : nat)
    (current_page : Z) :
  (1 ≤ current_page ≤ total)%Z →
  (display_loop results total current_page (replicate k "n")).2
    = Some (Z.min (current_page + Z.of_nat k) total) ∧
  (display_loop results total current_page (replicate k "p")).2
    = Some (Z.max (current_page - Z.of_nat k) 1).
Proof.
  revert current_page. induction k as [|k IH]; intros current_page Hrange.
  - cbn. split; f_equal; lia.
  - cbn [replicate]. rewrite !display_loop_step.
    assert (HN : navigate total current_page (upper "n") =
      if (current_page <? total)%Z then (Goto (current_page + 1)%Z, [])
      else (Goto current_page, [Line "Invalid navigation choice."]))
      by reflexivity.
    assert (HP : navigate total current_page (upper "p") =
      if (1 <? current_page)%Z then (Goto (current_page - 1)%Z, [])
      else (Goto current_page, [Line "Invalid navigation choice."]))
      by reflexivity.
    rewrite HN, HP. split.
    + destruct (Z.ltb_spec current_page total); cbn [snd].
      * rewrite (proj1 (IH (current_page + 1)%Z ltac:(lia))). f_equal. lia.
      * rewrite (proj1 (IH current_page Hrange)). f_equal. lia.
    + destruct (Z.ltb_spec 1 current_page); cbn [snd].
      * rewrite (proj2 (IH (current_page - 1)%Z ltac:(lia))). f_equal. lia.
      * rewrite (proj2 (IH current_page Hrange)). f_equal. lia.
Qed.

(** Twelve rows: the third page is the last. *)
Lemma pages_partition_witness :
  length (page_results twelve_rows 2) = 5 ∧
  1 ≤ length (page_results twelve_rows (total_pages twelve_rows)) ≤ 5 ∧
  page_results twelve_rows 4 = [].
Proof.
  destruct (pages_partition twelve_rows) as (_ & Hfull & Hlast & Hbeyond).
  split; [apply Hfull; vm_compute; split; [discriminate|reflexivity]|].
  split; [apply Hlast; discriminate|].
  apply Hbeyond. vm_compute. reflexivity.
Defined.

(** Two lines after [b]. *)
Lemma display_loop_leaves_on_B_witness :
  display_loop twelve_rows 3 1 (["n"] ++ "b" :: ["n"; "x"]) =
  display_loop twelve_rows 3 1 (["n"] ++ ["b"]).
Proof.
  apply (proj1 (proj2 (display_loop_leaves_on_B twelve_rows 3))).
  reflexivity.
Defined.

(** Five presses of [n] on three pages. *)
Lemma repeated_navigation_saturates_witness :
  (display_loop twelve_rows 3 1 (replicate 5 "n")).2 = Some 3%Z.
Proof.
  apply (proj1 (repeated_navigation_saturates twelve_rows 3 5 1
                  ltac:(lia))).
Defined.

(** * The session at the terminal *)

Lemma printing_printing a b w : printing a (printing b w) = printing (b ++ a) w.
Proof. unfold printing. cbn [out sent]. by rewrite <- app_assoc. Qed.

Lemma printing_nil w : printing [] w = w.
Proof. destruct w. unfold printing. cbn [out sent]. by rewrite app_nil_r. Qed.

Section Choice.

Context `{Unicode}.

Lemma choice_loop_shape keys : ∀ w,
  match MediaSearchCLI.choice_loop keys w with
  | (Returned choice, keys', _) =>
      (1 ≤ choice ≤ 5)%Z ∧ length keys' < length keys
  | (Waiting, keys', _) => keys' = []
  | _ => False
  end.
Proof.
  induction keys as [|line rest IH]; intros w; cbn [MediaSearchCLI.choice_loop].
  - done.
  - assert (Hrec : ∀ w',
      match MediaSearchCLI.choice_loop rest w' with
      | (Returned choice, keys', _) =>
          (1 ≤ choice ≤ 5)%Z ∧ length keys' < length (line :: rest)
      | (Waiting, keys', _) => keys' = []
      | _ => False
      end).
    { intros w'. specialize (IH w').
      destruct (MediaSearchCLI.choice_loop rest w') as [[[c| | |] keys'] w''];
        try done. cbn [length]. split; [apply IH|]. destruct IH. lia. }
    destruct (int_of_str line) as [choice|]; [|apply Hrec].
    destruct (Z.leb_spec 1 choice), (Z.leb_spec choice 5); cbn [andb];
      try apply Hrec.
    cbn [length]. split; [lia|lia].
Qed.

Lemma choice_loop_rejected rejected : ∀ keys w,
  forallb (λ l, negb (valid_choice l)) rejected = true →
  MediaSearchCLI.choice_loop (rejected ++ keys) w =
  MediaSearchCLI.choice_loop keys
    (printing (concat ((λ l, [choice_prompt; choice_notice l]) <$> rejected)) w).
Proof.
  induction rejected as [|line rejected IH]; intros keys w Hall.
  - cbn [app fmap list_fmap concat]. by rewrite printing_nil.
  - cbn [forallb] in Hall. apply andb_true_iff in Hall as [Hline Hall].
    cbn [app MediaSearchCLI.choice_loop fmap list_fmap concat].
    unfold valid_choice in Hline. unfold choice_notice at 1.
    destruct (int_of_str line) as [choice|].
    + apply negb_true_iff in Hline. rewrite Hline.
      rewrite (IH keys _ Hall), !printing_printing. done.
    + rewrite (IH keys _ Hall), !printing_printing. done.
Qed.

(** X16: [get_user_choice] prints the menu and returns the first line that [int]
    reads as a number from 1 to 5, leaving the lines after it unread; for
    every line before it, it asks again after one notice; when no line is
    valid it waits.  It never raises, and what it returns lies between 1
    and 5. *)
Theorem get_user_choice_first_valid (rejected : list string) (w : world) :
  forallb (λ l, negb (valid_choice l)) rejected = true →
  let asked :=
    MediaSearchCLI.menu
    ++ concat ((λ l, [choice_prompt; choice_notice l]) <$> rejected)
    ++ [choice_prompt] in
  (∀ line choice rest,
     int_of_str line = Some choice → (1 ≤ choice ≤ 5)%Z →
     MediaSearchCLI.get_user_choice (rejected ++ line :: rest) w
       = (Returned choice, rest, printing asked w)) ∧
  MediaSearchCLI.get_user_choice rejected w = (Waiting, [], printing asked w) ∧
  (∀ keys,
     match MediaSearchCLI.get_user_choice keys w with
     | (Returned choice, keys', _) =>
         (1 ≤ choice ≤ 5)%Z ∧ length keys' < length keys
     | (Waiting, keys', _) => keys' = []
     | _ => False
     end).
Proof.
  intros Hall. cbn zeta. unfold MediaSearchCLI.get_user_choice.
  split; [|split].
  - intros line choice rest Hline Hrange.
    rewrite (choice_loop_rejected rejected _ _ Hall).
    cbn [MediaSearchCLI.choice_loop]. rewrite Hline.
    destruct (Z.leb_spec 1 choice), (Z.leb_spec choice 5); try lia.
    cbn [andb]. by rewrite !printing_printing.
  - rewrite <- (app_nil_r rejected) at 1.
    rewrite (choice_loop_rejected rejected _ _ Hall).
    cbn [MediaSearchCLI.choice_loop]. by rewrite !printing_printing.
  - intros keys. apply choice_loop_shape.
Qed.

End Choice.

Lemma settles_mono {A} keys keys' (r : outcome A * list string * world) :
  settles keys' r → length keys' ≤ length keys → settles keys r.
Proof.
  unfold settles. destruct r as [[[a|e|c|] k] w]; cbn [fst snd]; try done. lia.
Qed.

Lemma tame_mono {A} keys keys' (r : outcome A * list string * world) :
  tame keys' r → length keys' ≤ length keys → tame keys r.
Proof.
  unfold tame. destruct r as [[[a|e|c|] k] w]; cbn [fst snd]; try done; lia.
Qed.

Lemma settles_tame {A} keys (r : outcome A * list string * world) :
  settles keys r → tame keys r.
Proof. unfold settles, tame. by destruct r as [[[a|e|c|] k] w]. Qed.

Lemma settles_input prompt keys w : settles keys (input prompt keys w).
Proof. destruct keys; cbn; [done|lia]. Qed.

Lemma settles_say evs keys w : settles keys (say evs keys w).
Proof. cbn. lia. Qed.

Lemma settles_cret {A} (a : A) keys w : settles keys (cret a keys w).
Proof. cbn. lia. Qed.

Lemma tame_call {A} (m : M A) keys w : tame keys (call m keys w).
Proof. unfold call. destruct (m w) as [[a|e] w']; cbn; lia. Qed.

Lemma settles_bind {A B} (m : C A) (k : A → C B) keys w :
  settles keys (m keys w) →
  (∀ a keys' w', length keys' ≤ length keys → settles keys' (k a keys' w')) →
  settles keys (cbind m k keys w).
Proof.
  unfold cbind. intros Hm Hk.
  destruct (m keys w) as [[[a|e|c|] keys'] w']; cbn [settles fst snd] in *;
    try done.
  eapply settles_mono; [by apply Hk|done].
Qed.

Lemma tame_bind {A B} (m : C A) (k : A → C B) keys w :
  tame keys (m keys w) →
  (∀ a keys' w', length keys' ≤ length keys → tame keys' (k a keys' w')) →
  tame keys (cbind m k keys w).
Proof.
  unfold cbind. intros Hm Hk.
  destruct (m keys w) as [[[a|e|c|] keys'] w']; cbn [tame fst snd] in *;
    try done.
  eapply tame_mono; [by apply Hk|done].
Qed.

Lemma settles_except {A} (body : C A) (handler : exn → C A) keys w :
  tame keys (body keys w) →
  (∀ e keys' w', settles keys' (handler e keys' w')) →
  settles keys (except_Exception body handler keys w).
Proof.
  unfold except_Exception. intros Hbody Hhandler.
  destruct (body keys w) as [[[a|e|c|] keys'] w']; cbn [tame settles fst snd] in *;
    try done.
  eapply settles_mono; [apply Hhandler|done].
Qed.

Lemma display_pages_settles results total keys : ∀ current_page w,
  settles keys (MediaSearchCLI.display_pages results total current_page keys w).
Proof.
  induction keys as [|line rest IH]; intros current_page w;
    cbn [MediaSearchCLI.display_pages]; [done|].
  destruct (navigate total current_page (upper line)) as [[page|] evs].
  - eapply settles_mono; [apply IH|cbn; lia].
  - cbn. lia.
Qed.

Lemma display_results_settles results keys w :
  settles keys (MediaSearchCLI.display_results results keys w).
Proof.
  destruct results; [apply settles_say|apply display_pages_settles].
Qed.

Lemma display_pages_sent results total keys : ∀ current_page w,
  sent (MediaSearchCLI.display_pages results total current_page keys w).2 = sent w.
Proof.
  induction keys as [|line rest IH]; intros current_page w;
    cbn [MediaSearchCLI.display_pages]; [done|].
  destruct (navigate total current_page (upper line)) as [[page|] evs]; [|done].
  by rewrite IH.
Qed.

Lemma display_results_sent results keys w :
  sent (MediaSearchCLI.display_results results keys w).2 = sent w.
Proof. destruct results; [done|apply display_pages_sent]. Qed.

Section SessionProperties.

Context `{Unicode}.

Variable net : list request → request → option pyval.
Variable searcher : AdvancedMediaSearch.

(** A search followed by the display of its table, under the handler that
    prints the error. *)
Lemma guarded_search_settles (m : M DataFrame) context keys w :
  settles keys
    (except_Exception
       (results ← call m; MediaSearchCLI.display_results results)
       (λ e, say [ErrorLine context e]) keys w).
Proof.
  apply settles_except; [|intros; apply settles_say].
  apply tame_bind; [apply tame_call|].
  intros. apply settles_tame, display_results_settles.
Qed.

Lemma search_by_title_settles keys w :
  settles keys (MediaSearchCLI.search_by_title net searcher keys w).
Proof.
  unfold MediaSearchCLI.search_by_title.
  apply settles_bind; [apply settles_input|]. intros query keys1 w1 _.
  apply settles_bind; [apply settles_input|]. intros media_type keys2 w2 _.
  apply guarded_search_settles.
Qed.

Lemma search_by_genre_settles keys w :
  settles keys (MediaSearchCLI.search_by_genre net searcher keys w).
Proof.
  unfold MediaSearchCLI.search_by_genre.
  apply settles_bind; [apply settles_input|]. intros genre keys1 w1 _.
  apply settles_bind; [apply settles_input|]. intros media_type keys2 w2 _.
  apply settles_bind; [apply settles_input|]. intros year keys3 w3 _.
  apply settles_except; [|intros; apply settles_say].
  apply tame_bind; [apply tame_call|]. intros y keys4 w4 _.
  apply tame_bind; [apply tame_call|].
  intros. apply settles_tame, display_results_settles.
Qed.

Lemma search_by_year_settles keys w :
  settles keys (MediaSearchCLI.search_by_year net searcher keys w).
Proof.
  unfold MediaSearchCLI.search_by_year.
  apply settles_bind; [apply settles_input|]. intros year keys1 w1 _.
  apply settles_except; [|intros; apply settles_say].
  apply tame_bind; [apply tame_call|]. intros y keys4 w4 _.
  apply tame_bind; [apply tame_call|].
  intros. apply settles_tame, display_results_settles.
Qed.

Lemma advanced_search_settles keys w :
  settles keys (MediaSearchCLI.advanced_search net searcher keys w).
Proof.
  unfold MediaSearchCLI.advanced_search.
  apply settles_bind; [apply settles_input|]. intros query keys1 w1 _.
  apply settles_bind; [apply settles_input|]. intros media_type keys2 w2 _.
  apply settles_bind; [apply settles_input|]. intros genre keys3 w3 _.
  apply settles_bind; [apply settles_input|]. intros year keys4 w4 _.
  apply settles_bind.
  - destruct year; [apply settles_cret|].
    destruct (int_of_str _); [apply settles_cret|].
    apply settles_bind; [apply settles_say|]. intros. apply settles_cret.
  - intros filters keys5 w5 _. apply guarded_search_settles.
Qed.

Lemma turn_shape keys w :
  match MediaSearchCLI.turn net searcher keys w with
  | (Returned _, keys', _) => length keys' < length keys
  | (Waiting, keys', _) => keys' = []
  | (Exited code, _, _) => code = 0%Z
  | (Raised _, _, _) => False
  end.
Proof.
  unfold MediaSearchCLI.turn, MediaSearchCLI.get_user_choice, MediaSearchCLI.print_header.
  unfold mbind, C_bind. unfold cbind at 1. cbn [say]. unfold cbind at 1.
  pose proof (choice_loop_shape keys
    (printing MediaSearchCLI.menu
       (printing
          [Line (newline +:+ str_repeat "=" 50);
           Line (str_repeat " " 10 +:+ "🎬 Advanced Media Search Tool 🍿"
                 +:+ str_repeat " " 10);
           Line (str_repeat "=" 50)] w))) as Hchoice.
  destruct (MediaSearchCLI.choice_loop keys _) as [[[choice| | |] keys1] w1];
    try done.
  destruct Hchoice as [Hrange Hlen].
  assert (Hrest : ∀ (m : C unit), settles keys1 (m keys1 w1) →
    match cbind m (λ _, cbind (input (newline +:+ "Press Enter to continue..."))
                           (λ _, cret tt)) keys1 w1 with
    | (Returned _, keys', _) => length keys' < length keys
    | (Waiting, keys', _) => keys' = []
    | (Exited code, _, _) => code = 0%Z
    | (Raised _, _, _) => False
    end).
  { intros m Hm.
    assert (Hs : settles keys1
      (cbind m (λ _, cbind (input (newline +:+ "Press Enter to continue..."))
                           (λ _, cret tt)) keys1 w1)).
    { apply settles_bind; [done|]. intros.
      apply settles_bind; [apply settles_input|]. intros. apply settles_cret. }
    unfold settles in Hs.
    destruct (cbind m _ keys1 w1) as [[[a|e|c|] keys'] w']; cbn [fst snd] in Hs;
      try done. lia. }
  destruct (Z.eqb_spec choice 1); [apply Hrest, search_by_title_settles|].
  destruct (Z.eqb_spec choice 2); [apply Hrest, search_by_genre_settles|].
  destruct (Z.eqb_spec choice 3); [apply Hrest, search_by_year_settles|].
  destruct (Z.eqb_spec choice 4); [apply Hrest, advanced_search_settles|].
  destruct (Z.eqb_spec choice 5); [done|lia].
Qed.

Lemma run_stops fuel : ∀ keys w,
  length keys < fuel →
  ∃ stop keys' w',
    MediaSearchCLI.run net searcher fuel keys w = Some (stop, keys', w') ∧
    (stop = Exited 0 ∨ (stop = Waiting ∧ keys' = [])).
Proof.
  induction fuel as [|fuel IH]; intros keys w Hfuel; [lia|].
  cbn [MediaSearchCLI.run].
  pose proof (turn_shape keys w) as Hturn.
  destruct (MediaSearchCLI.turn net searcher keys w) as [[[[]|e|code|] keys'] w'].
  - apply IH. lia.
  - done.
  - subst code. eexists _, _, _. split; [done|]. by left.
  - subst keys'. eexists _, _, _. split; [done|]. by right.
Qed.

End SessionProperties.

(** X17: No exception ends the session.  Whatever the upstream answers and
    whatever is typed, [main] unrolled for more turns than there are lines
    stops in one of two ways: by [sys.exit(0)] after the choice 5, or
    waiting for the next line with every line read. *)
Theorem session_never_crashes `{Unicode}
    (net : list request → request → option pyval)
    (env : gmap string string) (fuel : nat) (keys : list string) (w : world) :
  length keys < fuel →
  ∃ stop keys' w',
    MediaSearchCLI.main net env fuel keys w = Some (stop, keys', w') ∧
    (stop = Exited 0 ∨ (stop = Waiting ∧ keys' = [])).
Proof.
  intros Hfuel. unfold MediaSearchCLI.main. rewrite init_run. cbn zeta.
  by apply run_stops.
Qed.

Section SessionSearches.

Context `{Unicode}.

Variable net : list request → request → option pyval.
Variable searcher : AdvancedMediaSearch.

Lemma guarded_search_sent (m : M DataFrame) context keys w :
  sent (except_Exception
          (results ← call m; MediaSearchCLI.display_results results)
          (λ e, say [ErrorLine context e]) keys w).2 = sent (m w).2.
Proof.
  unfold except_Exception, mbind, C_bind, cbind, call.
  destruct (m w) as [[rows|e] w1]; cbn [snd]; [|done].
  pose proof (display_results_sent rows keys w1) as Hsent.
  by destruct (MediaSearchCLI.display_results rows keys w1) as [[[]] ?].
Qed.

Lemma year_only_filters (v : pyval) :
  genre_filter (Some (<["release_year" := v]> ∅)) = PNone ∧
  year_filter (Some (<["release_year" := v]> ∅)) = v.
Proof. unfold genre_filter, year_filter, dict_get. split; by simplify_map_eq. Qed.

Lemma genre_and_year_filters (g v : pyval) :
  genre_filter (Some (<["release_year" := v]> (<["genre" := g]> ∅))) = g ∧
  year_filter (Some (<["release_year" := v]> (<["genre" := g]> ∅))) = v.
Proof. unfold genre_filter, year_filter, dict_get. split; by simplify_map_eq. Qed.

Lemma truthy_int n : truthy (PInt n) = negb (n =? 0)%Z.
Proof. reflexivity. Qed.

(** The request of a search whose only filter may be a year [n]. *)
Lemma search_with_year_sent query media_type genre (n : Z) w :
  truthy genre = false →
  sent (advanced_search net searcher query media_type
          (Some (<["release_year" := PInt n]> (<["genre" := genre]> ∅))) w).2
    = sent w ++
      [if (n =? 0)%Z then search_request searcher query media_type
       else year_request searcher (PInt n) media_type].
Proof.
  intros Hgenre.
  destruct (genre_and_year_filters genre (PInt n)) as [Hg Hy].
  destruct (Z.eqb_spec n 0) as [->|Hn].
  - rewrite (advanced_search_plain net searcher); [done| |].
    + by rewrite Hg.
    + by rewrite Hy.
  - rewrite (advanced_search_year_only net searcher).
    + by rewrite Hy.
    + by rewrite Hg.
    + rewrite Hy, truthy_int. by apply negb_true_iff, Z.eqb_neq.
Qed.

Lemma search_by_year_step year rest w :
  MediaSearchCLI.search_by_year net searcher (year :: rest) w =
    except_Exception
      (n ← call (lift (py_int year));
       results ← call (searcher_advanced_search net searcher "" "movie"
                         (Some (<["release_year" := PInt n]> ∅)));
       MediaSearchCLI.display_results results)
      (λ e, say [ErrorLine "Error in search" e])
      rest (printing [Prompt "Enter release year: "] w).
Proof. reflexivity. Qed.

Lemma search_by_genre_step genre media_type year rest w :
  MediaSearchCLI.search_by_genre net searcher (genre :: media_type :: year :: rest) w =
    except_Exception
      (y ← call (lift (match year with
                       | "" => Ok PNone
                       | _ => n ← py_int year; Ok (PInt n)
                       end));
       results ← call (searcher_advanced_search net searcher "" (or_movie media_type)
                         (Some (<["release_year" := y]>
                                 (<["genre" := PStr genre]> ∅))));
       MediaSearchCLI.display_results results)
      (λ e, say [ErrorLine "Error in search" e])
      rest
      (printing
         [Prompt "Enter genre (e.g., Science Fiction): ";
          Prompt "Enter media type (movie/tv, default=movie): ";
          Prompt "Enter release year (optional, press enter to skip): "] w).
Proof.
  unfold MediaSearchCLI.search_by_genre, mbind at 1 2 3, C_bind, cbind, input.
  by rewrite !printing_printing.
Qed.

(** X18: The choice 3, search by year, is always a search for movies: a year
    that [int] reads as a number other than 0 goes out as
    [primary_release_year] of a discover request; the year 0 sends the
    plain search with the empty query; a line that [int] refuses sends
    nothing and prints the error.  In each case the lines after the year
    are left for what follows. *)
Theorem search_by_year_is_for_movies (year : string) (rest : list string)
    (w : world) :
  let w0 := printing [Prompt "Enter release year: "] w in
  let run := MediaSearchCLI.search_by_year net searcher (year :: rest) w in
  (int_of_str year = None →
     run = (Returned tt, rest, printing [ErrorLine "Error in search" ValueError] w0)) ∧
  (∀ n, int_of_str year = Some n → n ≠ 0%Z →
     sent run.2 = sent w ++ [year_request searcher (PInt n) "movie"]) ∧
  (int_of_str year = Some 0%Z →
     sent run.2 = sent w ++ [search_request searcher "" "movie"]).
Proof.
  cbn zeta. rewrite search_by_year_step.
  split; [|split].
  - intros Hyear. unfold except_Exception, mbind, C_bind, cbind, call, lift, py_int.
    by rewrite Hyear.
  - intros n Hyear Hn.
    assert (Hstep : ∀ (k : Z → C unit) (h : exn → C unit),
      except_Exception (x ← call (lift (py_int year)); k x) h rest
        (printing [Prompt "Enter release year: "] w)
      = except_Exception (k n) h rest (printing [Prompt "Enter release year: "] w)).
    { intros k h. unfold except_Exception, mbind, C_bind, cbind, call, lift, py_int.
      by rewrite Hyear. }
    rewrite Hstep, guarded_search_sent.
    destruct (year_only_filters (PInt n)) as [Hg Hy].
    unfold searcher_advanced_search.
    rewrite (advanced_search_year_only net searcher).
    + by rewrite Hy.
    + by rewrite Hg.
    + rewrite Hy, truthy_int. by apply negb_true_iff, Z.eqb_neq.
  - intros Hyear.
    assert (Hstep : ∀ (k : Z → C unit) (h : exn → C unit),
      except_Exception (x ← call (lift (py_int year)); k x) h rest
        (printing [Prompt "Enter release year: "] w)
      = except_Exception (k 0%Z) h rest (printing [Prompt "Enter release year: "] w)).
    { intros k h. unfold except_Exception, mbind, C_bind, cbind, call, lift, py_int.
      by rewrite Hyear. }
    rewrite Hstep, guarded_search_sent.
    destruct (year_only_filters (PInt 0)) as [Hg Hy].
    unfold searcher_advanced_search.
    rewrite (advanced_search_plain net searcher); [done| |].
    + by rewrite Hg.
    + by rewrite Hy.
Qed.

(** X19: An exception of the search does not leave [search_by_title]: it is
    printed after ["Error in search"], the method returns, and the lines
    after the two it has read stay unread.  The media type is ["movie"]
    when its line is empty. *)
Theorem search_errors_are_printed (query media_type : string)
    (rest : list string) (w w1 : world) (e : exn) :
  advanced_search net searcher query (or_movie media_type) None
    (printing [Prompt "Enter title to search: ";
               Prompt "Enter media type (movie/tv, default=movie): "] w)
    = (Raise e, w1) →
  MediaSearchCLI.search_by_title net searcher (query :: media_type :: rest) w
    = (Returned tt, rest, printing [ErrorLine "Error in search" e] w1).
Proof.
  intros Hraise. unfold MediaSearchCLI.search_by_title.
  unfold mbind at 1. unfold C_bind, cbind at 1. cbn [input].
  unfold mbind at 1. unfold C_bind, cbind at 1. cbn [input].
  rewrite printing_printing. cbn [app].
  unfold except_Exception, mbind, C_bind, cbind, call, searcher_advanced_search.
  by rewrite Hraise.
Qed.

(** X20: In the search by genre an empty genre line is not refused: the search
    goes by the year alone, or, without a year, is the plain search with
    the empty query.  A year that [int] refuses stops the search before any
    request, whatever the genre. *)
Theorem search_by_genre_lines (genre media_type year : string)
    (rest : list string) (w : world) :
  let w0 := printing
    [Prompt "Enter genre (e.g., Science Fiction): ";
     Prompt "Enter media type (movie/tv, default=movie): ";
     Prompt "Enter release year (optional, press enter to skip): "] w in
  let run := MediaSearchCLI.search_by_genre net searcher
               (genre :: media_type :: year :: rest) w in
  (genre = "" → year = "" →
     sent run.2 = sent w ++ [search_request searcher "" (or_movie media_type)]) ∧
  (∀ n, genre = "" → int_of_str year = Some n → n ≠ 0%Z →
     sent run.2 = sent w ++ [year_request searcher (PInt n) (or_movie media_type)]) ∧
  (year ≠ "" → int_of_str year = None →
     run = (Returned tt, rest, printing [ErrorLine "Error in search" ValueError] w0)).
Proof.
  cbn zeta. rewrite search_by_genre_step.
  set (w0 := printing _ w).
  split; [|split].
  - intros -> ->.
    assert (Hstep : ∀ (k : pyval → C unit) (h : exn → C unit),
      except_Exception (x ← call (lift (Ok PNone)); k x) h rest w0
      = except_Exception (k PNone) h rest w0) by done.
    rewrite Hstep, guarded_search_sent. unfold searcher_advanced_search.
    destruct (genre_and_year_filters (PStr "") PNone) as [Hg Hy].
    rewrite (advanced_search_plain net searcher); [done| |].
    + by rewrite Hg.
    + by rewrite Hy.
  - intros n -> Hyear Hn.
    assert (Hstep : ∀ (k : pyval → C unit) (h : exn → C unit),
      except_Exception
        (x ← call (lift (match year with
                          | "" => Ok PNone
                          | _ => n ← py_int year; Ok (PInt n)
                          end)); k x) h rest w0
      = except_Exception (k (PInt n)) h rest w0).
    { intros k h. destruct year as [|c s]; [done|].
      unfold except_Exception, mbind, C_bind, cbind, call, lift, py_int,
        result_bind, rbind. by rewrite Hyear. }
    rewrite Hstep, guarded_search_sent. unfold searcher_advanced_search.
    rewrite search_with_year_sent by done.
    by destruct (Z.eqb_spec n 0).
  - intros Hne Hyear. destruct year as [|c s]; [done|].
    unfold except_Exception, mbind, C_bind, cbind, call, lift, py_int,
      result_bind, rbind. by rewrite Hyear.
Qed.

End SessionSearches.

Section SessionSamples.

#[local] Existing Instance sample_tables.

(** The lines ["7"] and ["x"], then ["2"]; the line ["３"], in a full-width
    digit, then ["2"]. *)
Lemma get_user_choice_first_valid_witness :
  (MediaSearchCLI.get_user_choice (["7"; "x"] ++ "2" :: ["Comedy"]) quiet).1
    = (Returned 2%Z, ["Comedy"]) ∧
  (MediaSearchCLI.get_user_choice ([] ++ "３" :: ["2"]) quiet).1
    = (Returned 3%Z, ["2"]).
Proof.
  split.
  - rewrite (proj1 (get_user_choice_first_valid (H:=sample_tables) ["7"; "x"] quiet
               ltac:(vm_compute; reflexivity)) "2" 2%Z ["Comedy"]
               ltac:(vm_compute; reflexivity) ltac:(lia)).
    reflexivity.
  - rewrite (proj1 (get_user_choice_first_valid (H:=sample_tables) [] quiet
               ltac:(reflexivity)) "３" 3%Z ["2"]
               ltac:(vm_compute; reflexivity) ltac:(lia)).
    reflexivity.
Defined.

(** A session that searches by year, pages and leaves. *)
Lemma session_never_crashes_witness :
  ∃ stop keys' w',
    MediaSearchCLI.main unreadable_net ∅ 9
      ["3"; "1999"; ""; "1"; "Dune"; ""; ""; "5"] quiet = Some (stop, keys', w') ∧
    (stop = Exited 0 ∨ (stop = Waiting ∧ keys' = [])).
Proof.
  apply (session_never_crashes unreadable_net ∅ 9
           ["3"; "1999"; ""; "1"; "Dune"; ""; ""; "5"] quiet).
  cbn. lia.
Defined.

(** The years ["soon"], ["1999"], ["２０２０"] in full-width digits, and
    ["0"]. *)
Lemma search_by_year_is_for_movies_witness :
  MediaSearchCLI.search_by_year sample_net sample_self ["soon"; "5"] quiet
    = (Returned tt, ["5"],
       printing [ErrorLine "Error in search" ValueError]
         (printing [Prompt "Enter release year: "] quiet)) ∧
  sent (MediaSearchCLI.search_by_year sample_net sample_self ["1999"; "b"] quiet).2
    = sent quiet ++ [year_request sample_self (PInt 1999) "movie"] ∧
  sent (MediaSearchCLI.search_by_year sample_net sample_self ["２０２０"; "b"] quiet).2
    = sent quiet ++ [year_request sample_self (PInt 2020) "movie"] ∧
  sent (MediaSearchCLI.search_by_year sample_net sample_self ["0"; "b"] quiet).2
    = sent quiet ++ [search_request sample_self "" "movie"].
Proof.
  split; [|split; [|split]].
  - apply (proj1 (search_by_year_is_for_movies sample_net sample_self
                    "soon" ["5"] quiet)). reflexivity.
  - apply (proj1 (proj2 (search_by_year_is_for_movies sample_net sample_self
                    "1999" ["b"] quiet)) 1999%Z); [reflexivity|discriminate].
  - apply (proj1 (proj2 (search_by_year_is_for_movies sample_net sample_self
                    "２０２０" ["b"] quiet)) 2020%Z); [reflexivity|discriminate].
  - apply (proj2 (proj2 (search_by_year_is_for_movies sample_net sample_self
                    "0" ["b"] quiet))). reflexivity.
Defined.

(** An upstream whose only result has the date ["soon"]. *)
Lemma search_errors_are_printed_witness :
  ∃ w1,
    MediaSearchCLI.search_by_title unreadable_net sample_self ["Pilot"; ""; "5"] quiet
      = (Returned tt, ["5"], printing [ErrorLine "Error in search" ValueError] w1).
Proof.
  eexists.
  apply (search_errors_are_printed unreadable_net sample_self "Pilot" "" ["5"]
           quiet _ ValueError).
  vm_compute. reflexivity.
Defined.

(** No genre and the year 2020; the genre [Comedy] and the year ["soon"]. *)
Lemma search_by_genre_lines_witness :
  sent (MediaSearchCLI.search_by_genre sample_net sample_self
          [""; "tv"; "2020"; "b"] quiet).2
    = sent quiet ++ [year_request sample_self (PInt 2020) (or_movie "tv")] ∧
  (MediaSearchCLI.search_by_genre sample_net sample_self
     ["Comedy"; ""; "soon"; "5"] quiet).1 = (Returned tt, ["5"]).
Proof.
  split.
  - apply (proj1 (proj2 (search_by_genre_lines sample_net sample_self
                    "" "tv" "2020" ["b"] quiet)) 2020%Z);
      [reflexivity|reflexivity|discriminate].
  - rewrite (proj2 (proj2 (search_by_genre_lines sample_net sample_self
                    "Comedy" "" "soon" ["5"] quiet))
               ltac:(discriminate) ltac:(reflexivity)).
    reflexivity.
Defined.

End SessionSamples.

(** * MediaInfoSystem.filter_by_genre *)

Section FilterProperties.

Context `{Unicode}.

Variable net : list request → request → option pyval.
Variable contains : pyval → pyval → result bool.

Lemma select_media_sublist genre_ids media_list : ∀ kept,
  MediaInfoSystem.select_media contains genre_ids media_list = Ok kept →
  sublist kept media_list.
Proof.
  induction media_list as [|media rest IH]; intros kept;
    cbn [MediaInfoSystem.select_media].
  - by intros [= <-].
  - destruct (MediaInfoSystem.any_genre contains media genre_ids) as [keep|];
      [|done]. cbn [mbind result_bind rbind].
    destruct (MediaInfoSystem.select_media contains genre_ids rest) as [kept'|];
      [|done]. cbn [mbind result_bind rbind]. intros [= <-].
    destruct keep; [apply sublist_skip|apply sublist_cons]; by apply IH.
Qed.

Lemma select_media_idemp genre_ids media_list : ∀ kept,
  MediaInfoSystem.select_media contains genre_ids media_list = Ok kept →
  MediaInfoSystem.select_media contains genre_ids kept = Ok kept.
Proof.
  induction media_list as [|media rest IH]; intros kept;
    cbn [MediaInfoSystem.select_media].
  - by intros [= <-].
  - destruct (MediaInfoSystem.any_genre contains media genre_ids) as [keep|] eqn:Hany;
      [|done]. cbn [mbind result_bind rbind].
    destruct (MediaInfoSystem.select_media contains genre_ids rest) as [kept'|];
      [|done]. cbn [mbind result_bind rbind]. intros [= <-].
    specialize (IH kept' eq_refl). destruct keep; [|done].
    cbn [MediaInfoSystem.select_media]. by rewrite Hany, IH.
Qed.

Lemma select_media_no_ids media_list :
  MediaInfoSystem.select_media contains [] media_list = Ok [].
Proof.
  induction media_list as [|media rest IH]; [done|].
  cbn [MediaInfoSystem.select_media MediaInfoSystem.any_genre mbind result_bind rbind].
  by rewrite IH.
Qed.

Lemma resolve_names_resolvable (genre_map : gmap string pyval) genre_names :
  MediaInfoSystem.resolve_names genre_map genre_names =
  MediaInfoSystem.resolve_names genre_map
    (filter (λ g, is_Some (genre_map !! lower g)) genre_names).
Proof.
  unfold MediaInfoSystem.resolve_names.
  induction genre_names as [|g names IH]; [done|].
  rewrite filter_cons. cbn [omap list_omap].
  destruct (decide (is_Some (genre_map !! lower g))) as [[id Hid]|Hnone].
  - cbn [omap list_omap]. rewrite Hid. by f_equal.
  - destruct (genre_map !! lower g) eqn:Hg; [by destruct Hnone|]. done.
Qed.

Lemma resolve_names_none (genre_map : gmap string pyval) genre_names :
  (∀ g, g ∈ genre_names → genre_map !! lower g = None) →
  MediaInfoSystem.resolve_names genre_map genre_names = [].
Proof.
  unfold MediaInfoSystem.resolve_names.
  induction genre_names as [|g names IH]; intros Hnone; [done|].
  cbn [omap list_omap]. rewrite (Hnone g) by (by left).
  apply IH. intros g' Hg'. apply Hnone. by right.
Qed.

Lemma filter_by_genre_unfold self media_list genre_names w :
  MediaInfoSystem.filter_by_genre net contains self media_list genre_names w =
    (match net (sent w) (MediaInfoSystem.genres_request self) with
     | Some body =>
         genres ← py_getitem body "genres";
         gs ← py_iter genres;
         genre_map ← genre_dict ∅ gs;
         MediaInfoSystem.select_media contains
           (MediaInfoSystem.resolve_names genre_map genre_names) media_list
     | None => Raise RequestException
     end,
     {| out := out w; sent := sent w ++ [MediaInfoSystem.genres_request self] |}).
Proof.
  unfold MediaInfoSystem.filter_by_genre, mbind at 1, M_bind, bind, get_json, lift.
  by destruct (net (sent w) (MediaInfoSystem.genres_request self)).
Qed.

Lemma filter_by_genre_run self media_list genre_names w
    (d : gmap string pyval) gs genre_map :
  net (sent w) (MediaInfoSystem.genres_request self) = Some (PDict d) →
  d !! "genres" = Some (PList gs) →
  genre_dict ∅ gs = Ok genre_map →
  MediaInfoSystem.filter_by_genre net contains self media_list genre_names w =
    (MediaInfoSystem.select_media contains
       (MediaInfoSystem.resolve_names genre_map genre_names) media_list,
     {| out := out w; sent := sent w ++ [MediaInfoSystem.genres_request self] |}).
Proof.
  intros Hnet Hd Hmap. rewrite filter_by_genre_unfold, Hnet.
  unfold py_getitem. rewrite Hd.
  cbn [mbind result_bind rbind py_iter]. by rewrite Hmap.
Qed.

(** X22: [filter_by_genre] has no handler and consults the movie list only.
    Whatever the media and the names, it sends exactly one request, for the
    genre list of movies with the key written into the address and no
    parameters, and prints nothing; when that fetch fails, the exception
    leaves the method: the upstream's own, a [TypeError] for a body that is
    no JSON object, a [KeyError] for an object without ["genres"]. *)
Theorem filter_by_genre_fetch (self : MediaInfoSystem.object)
    (media_list : list pyval) (genre_names : list string) (w : world) :
  let r := MediaInfoSystem.genres_request self in
  let run := MediaInfoSystem.filter_by_genre net contains self media_list
               genre_names w in
  run.2 = {| out := out w; sent := sent w ++ [r] |} ∧
  url r = "https://api.themoviedb.org/3/genre/movie/list?api_key="
          +:+ MediaInfoSystem.format_key (MediaInfoSystem.tmdb_api_key self) ∧
  params r = ∅ ∧
  (net (sent w) r = None → run.1 = Raise RequestException) ∧
  (∀ body, net (sent w) r = Some body → (∀ d, body ≠ PDict d) →
     run.1 = Raise TypeError) ∧
  (∀ d : gmap string pyval, net (sent w) r = Some (PDict d) →
     d !! "genres" = None → run.1 = Raise KeyError).
Proof.
  cbn zeta. rewrite filter_by_genre_unfold. cbn [fst snd].
  split; [done|]. split; [done|]. split; [done|]. split; [by intros ->|]. split.
  - intros body -> Hd.
    destruct body as [| | | | | |d]; first [done | by destruct (Hd d)].
  - intros d -> Hd. unfold py_getitem. by rewrite Hd.
Qed.

(** X23: Against a well-formed genre list, the names that do not resolve are
    skipped silently: the result is that of the resolvable names alone, and
    when no name resolves (or none is given) it is the empty list, whatever
    the media are, be they no dictionaries. *)
Theorem unresolved_names_are_skipped (self : MediaInfoSystem.object)
    (media_list : list pyval) (genre_names : list string) (w : world)
    (d : gmap string pyval) (gs : list pyval) (genre_map : gmap string pyval) :
  net (sent w) (MediaInfoSystem.genres_request self) = Some (PDict d) →
  d !! "genres" = Some (PList gs) →
  genre_dict ∅ gs = Ok genre_map →
  MediaInfoSystem.filter_by_genre net contains self media_list genre_names w =
  MediaInfoSystem.filter_by_genre net contains self media_list
    (filter (λ g, is_Some (genre_map !! lower g)) genre_names) w ∧
  ((∀ g, g ∈ genre_names → genre_map !! lower g = None) →
   (MediaInfoSystem.filter_by_genre net contains self media_list genre_names w).1
     = Ok []).
Proof.
  intros Hnet Hd Hmap.
  rewrite !(filter_by_genre_run self media_list _ w d gs genre_map Hnet Hd Hmap).
  split.
  - by rewrite <- resolve_names_resolvable.
  - intros Hnone. cbn [fst]. rewrite resolve_names_none by done.
    apply select_media_no_ids.
Qed.

(** X24: What [filter_by_genre] returns is a sublist of the media, in their
    order, and filtering it once more by the same names, against the same
    answer of the upstream, returns it unchanged. *)
Theorem filter_keeps_a_sublist (self : MediaInfoSystem.object)
    (media_list kept : list pyval) (genre_names : list string) (w : world) :
  (MediaInfoSystem.filter_by_genre net contains self media_list genre_names w).1
    = Ok kept →
  sublist kept media_list ∧
  (MediaInfoSystem.filter_by_genre net contains self kept genre_names w).1
    = Ok kept.
Proof.
  rewrite !filter_by_genre_unfold. cbn [fst].
  destruct (net (sent w) (MediaInfoSystem.genres_request self)) as [body|];
    [|done].
  destruct (py_getitem body "genres") as [genres|]; [|done].
  cbn [mbind result_bind rbind].
  destruct (py_iter genres) as [gs|]; [|done]. cbn [mbind result_bind rbind].
  destruct (genre_dict ∅ gs) as [genre_map|]; [|done].
  cbn [mbind result_bind rbind]. intros Hkept.
  split; [by eapply select_media_sublist|by eapply select_media_idemp].
Qed.

End FilterProperties.

Section FilterSamples.

#[local] Existing Instance sample_tables.

(** An upstream that is down. *)
Lemma filter_by_genre_fetch_witness :
  (MediaInfoSystem.filter_by_genre offline_net int_in_list info_self
     [action_film] ["Action"] quiet).1 = Raise RequestException.
Proof.
  apply (proj1 (proj2 (proj2 (proj2
           (filter_by_genre_fetch offline_net int_in_list info_self
              [action_film] ["Action"] quiet))))).
  reflexivity.
Defined.

(** The names ["Western"] and ["ACTION"] against the sample list; the
    names ["Western"] and ["COMÉDIE"] against the list in French. *)
Lemma unresolved_names_are_skipped_witness :
  MediaInfoSystem.filter_by_genre (genres_net sample_genres) int_in_list info_self
    [action_film; drama_film] ["Western"; "ACTION"] quiet =
  MediaInfoSystem.filter_by_genre (genres_net sample_genres) int_in_list info_self
    [action_film; drama_film]
    (filter (λ g, is_Some (catalogue_from sample_genre_names !! lower g))
       ["Western"; "ACTION"]) quiet ∧
  MediaInfoSystem.filter_by_genre (genres_net french_genres) int_in_list info_self
    [action_film; comedy_film] ["Western"; "COMÉDIE"] quiet =
  MediaInfoSystem.filter_by_genre (genres_net french_genres) int_in_list info_self
    [action_film; comedy_film]
    (filter (λ g, is_Some (catalogue_from french_genre_names !! lower g))
       ["Western"; "COMÉDIE"]) quiet.
Proof.
  split.
  - apply (proj1 (unresolved_names_are_skipped (genres_net sample_genres) int_in_list
             info_self [action_film; drama_film] ["Western"; "ACTION"] quiet
             (genre_body sample_genres) sample_genres
             (catalogue_from sample_genre_names)
             ltac:(reflexivity) ltac:(vm_compute; reflexivity)
             ltac:(vm_compute; reflexivity))).
  - apply (proj1 (unresolved_names_are_skipped (genres_net french_genres) int_in_list
             info_self [action_film; comedy_film] ["Western"; "COMÉDIE"] quiet
             (genre_body french_genres) french_genres
             (catalogue_from french_genre_names)
             ltac:(reflexivity) ltac:(vm_compute; reflexivity)
             ltac:(vm_compute; reflexivity))).
Defined.

(** Two films, one of them of the genre asked for. *)
Lemma filter_keeps_a_sublist_witness :
  sublist [action_film] [action_film; drama_film] ∧
  (MediaInfoSystem.filter_by_genre (genres_net sample_genres) int_in_list info_self
     [action_film] ["ACTION"] quiet).1 = Ok [action_film].
Proof.
  apply (filter_keeps_a_sublist (genres_net sample_genres) int_in_list info_self
           [action_film; drama_film] [action_film] ["ACTION"] quiet).
  vm_compute. reflexivity.
Defined.

End FilterSamples.

Section SessionAdvanced.

Context `{Unicode}.

Variable net : list request → request → option pyval.
Variable searcher : AdvancedMediaSearch.

Lemma advanced_search_step query media_type genre year rest w :
  MediaSearchCLI.advanced_search net searcher
    (query :: media_type :: genre :: year :: rest) w =
  let w0 := printing
    [Prompt "Enter search query (optional): ";
     Prompt "Enter media type (movie/tv, default=movie): ";
     Prompt "Enter genre filter (optional): ";
     Prompt "Enter release year filter (optional): "] w in
  let filters : gmap string pyval :=
    match genre with
    | "" => ∅
    | _ => <["genre" := PStr genre]> ∅
    end in
  let guarded (filters : gmap string pyval) :=
    except_Exception
      (results ← call (searcher_advanced_search net searcher query
                         (or_movie media_type) (Some filters));
       MediaSearchCLI.display_results results)
      (λ e, say [ErrorLine "Error in advanced search" e]) in
  match year with
  | "" => guarded filters rest w0
  | _ =>
      match int_of_str year with
      | Some n => guarded (<["release_year" := PInt n]> filters) rest w0
      | None =>
          guarded filters rest
            (printing [Line "Invalid year. Skipping year filter."] w0)
      end
  end.
Proof.
  unfold MediaSearchCLI.advanced_search, mbind at 1 2 3 4 5, C_bind.
  unfold cbind at 1 2 3 4, input. rewrite !printing_printing. cbn [app].
  cbn zeta. destruct year as [|c s]; [done|].
  destruct (int_of_str (String c s)); [done|].
  unfold cbind, mbind, C_bind, cbind, say, cret.
  by rewrite !printing_printing.
Qed.

(** X21: In the advanced search a year that [int] refuses does not stop the
    search, unlike in the search by genre: the notice is printed and the
    search goes on without the year, so that with no genre either it is the
    plain search for the query.  A year that reads as a number other than 0
    goes out, without genre, as the year of a discover request. *)
Theorem invalid_year_is_skipped (query media_type year : string)
    (rest : list string) (w : world) :
  let run := MediaSearchCLI.advanced_search net searcher
               (query :: media_type :: "" :: year :: rest) w in
  (year ≠ "" → int_of_str year = None →
     run = except_Exception
             (results ← call (searcher_advanced_search net searcher query
                                (or_movie media_type) (Some ∅));
              MediaSearchCLI.display_results results)
             (λ e, say [ErrorLine "Error in advanced search" e]) rest
             (printing
                [Prompt "Enter search query (optional): ";
                 Prompt "Enter media type (movie/tv, default=movie): ";
                 Prompt "Enter genre filter (optional): ";
                 Prompt "Enter release year filter (optional): ";
                 Line "Invalid year. Skipping year filter."] w) ∧
     sent run.2 = sent w ++ [search_request searcher query (or_movie media_type)]) ∧
  (∀ n, int_of_str year = Some n → n ≠ 0%Z →
     sent run.2 = sent w ++ [year_request searcher (PInt n) (or_movie media_type)]).
Proof.
  cbn zeta. rewrite advanced_search_step. cbn zeta. split.
  - intros Hne Hyear. destruct year as [|c s]; [done|]. rewrite Hyear.
    rewrite printing_printing. cbn [app]. split; [done|].
    rewrite guarded_search_sent. unfold searcher_advanced_search.
    by rewrite (advanced_search_plain net searcher).
  - intros n Hyear Hn. destruct year as [|c s]; [done|]. rewrite Hyear.
    rewrite guarded_search_sent. unfold searcher_advanced_search.
    destruct (year_only_filters (PInt n)) as [Hg Hy].
    rewrite (advanced_search_year_only net searcher).
    + by rewrite Hy.
    + by rewrite Hg.
    + rewrite Hy, truthy_int. by apply negb_true_iff, Z.eqb_neq.
Qed.

End SessionAdvanced.

Section SessionAdvancedSamples.

#[local] Existing Instance sample_tables.

(** The year ["soon"] and the year ["1999"]. *)
Lemma invalid_year_is_skipped_witness :
  sent (MediaSearchCLI.advanced_search sample_net sample_self
          ["Dune"; ""; ""; "soon"; "b"] quiet).2
    = sent quiet ++ [search_request sample_self "Dune" (or_movie "")] ∧
  sent (MediaSearchCLI.advanced_search sample_net sample_self
          ["Dune"; "tv"; ""; "1999"; "b"] quiet).2
    = sent quiet ++ [year_request sample_self (PInt 1999) (or_movie "tv")].
Proof.
  split.
  - apply (proj1 (invalid_year_is_skipped sample_net sample_self "Dune" "" "soon"
                    ["b"] quiet) ltac:(discriminate) ltac:(reflexivity)).
  - apply (proj2 (invalid_year_is_skipped sample_net sample_self "Dune" "tv" "1999"
                    ["b"] quiet) 1999%Z); [reflexivity|discriminate].
Defined.

End SessionAdvancedSamples.
